(** * Video compilation worker: a shallow embedding and its verified properties

    The worker consumes compilation jobs from a queue, downloads the job's
    frames from an object store, runs an external encoder over them, uploads
    the artifact and reports a terminal status.  The Python services are
    embedded as functions in a state-and-exception monad over an explicit
    world (local file system, object store, clock reads, worker counters and
    the log of external calls). *)

From Stdlib Require Import ZArith List Lia Ascii String.
From stdpp Require Import base strings gmap list pretty sorting.

Open Scope string_scope.
Open Scope Z_scope.

(** ** Python built-ins used by the services *)

Module Py.

(** [str(n)] for an [int]. *)
Definition str_int (n : Z) : string := pretty n.

Fixpoint zeros (n : nat) : string :=
  match n with
  | O => EmptyString
  | S k => String "0"%char (zeros k)
  end.

(** [s.rjust(width, "0")]. *)
Definition zfill (width : nat) (s : string) : string :=
  zeros (width - String.length s) +:+ s.

(** The format spec [{n:06d}]: sign first, zero padded to six columns. *)
Definition format_06d (n : Z) : string :=
  if n <? 0 then "-" +:+ zfill 5 (str_int (- n))
  else zfill 6 (str_int n).

Definition starts_with_sep (s : string) : bool :=
  match s with
  | String c _ => bool_decide (c = "/"%char)
  | EmptyString => false
  end.

Fixpoint ends_with_sep (s : string) : bool :=
  match s with
  | EmptyString => false
  | String c EmptyString => bool_decide (c = "/"%char)
  | String _ r => ends_with_sep r
  end.

(** One step of [posixpath.join]: an absolute component restarts the path,
    otherwise it is appended behind a single separator. *)
Definition join_step (path b : string) : string :=
  if starts_with_sep b then b
  else if bool_decide (path = EmptyString) || ends_with_sep path then path +:+ b
  else path +:+ "/" +:+ b.

(** [os.path.join(a, *p)]. *)
Definition os_path_join (a : string) (p : list string) : string :=
  fold_left join_step p a.

(** [p[:p.rfind("/") + 1]]. *)
Fixpoint head_to_last_sep (p : string) : string :=
  match p with
  | EmptyString => EmptyString
  | String c r =>
      match head_to_last_sep r with
      | EmptyString => if bool_decide (c = "/"%char) then "/" else EmptyString
      | h => String c h
      end
  end.

Fixpoint only_seps (s : string) : bool :=
  match s with
  | EmptyString => true
  | String c r => bool_decide (c = "/"%char) && only_seps r
  end.

(** [s.rstrip("/")]. *)
Fixpoint rstrip_sep (s : string) : string :=
  match s with
  | EmptyString => EmptyString
  | String c r =>
      match rstrip_sep r with
      | EmptyString =>
          if bool_decide (c = "/"%char) then EmptyString
          else String c EmptyString
      | r' => String c r'
      end
  end.

(** [os.path.dirname(p)]. *)
Definition os_path_dirname (p : string) : string :=
  let head := head_to_last_sep p in
  if only_seps head then head else rstrip_sep head.

(** Truthiness of an [Optional[str]]: [None] and the empty string are
    false. *)
Definition truthy (o : option string) : bool :=
  match o with
  | Some s => negb (bool_decide (s = EmptyString))
  | None => false
  end.

Fixpoint insert_by {A} (key : A → Z) (x : A) (l : list A) : list A :=
  match l with
  | [] => [x]
  | y :: r => if key y <? key x then y :: insert_by key x r else x :: l
  end.

(** [sorted(l, key=key)]: Python's sort is stable, so elements with equal
    keys keep their relative order; the result is the one a stable
    insertion sort produces. *)
Fixpoint sorted {A} (key : A → Z) (l : list A) : list A :=
  match l with
  | [] => []
  | x :: r => insert_by key x (sorted key r)
  end.

(** [range(a, b)]. *)
Definition range (a b : Z) : list Z := seqZ a (b - a).

(** [needle in haystack] for strings. *)
Definition contains (needle haystack : string) : Prop :=
  ∃ pre post, haystack = pre +:+ needle +:+ post.

End Py.

(** ** Data model (src/models.py) *)

Record VideoCompilationJob := {
  job_request_id : string;
  total_frames : Z;
  output_format : string;
  fps : Z;
  quality : string;
}.

Record FrameInfo := {
  frame_number : Z;
  frame_url : string;
  local_path : option string;
}.

(** Wall-clock readings and their differences.  The source uses floats; only
    subtraction of two readings is needed, so a reading is an integer number
    of clock ticks. *)
Definition seconds := Z.

Record CompilationResult := {
  request_id : string;
  success : bool;
  video_url : option string;
  error_message : option string;
  compilation_time : option seconds;
  completed_at : option seconds;
}.

(** The job counters of [WorkerStats]; the uptime, cpu and memory gauges are
    refreshed only by the health report and are left out. *)
Record WorkerStats := {
  active_jobs : Z;
  completed_jobs : Z;
  failed_jobs : Z;
}.

(** ** Exceptions *)

Inductive exn_class :=
| ZeroDivisionError
| OSError
| S3Error
| TimeoutError
| TypeError
| UnicodeDecodeError
| JSONDecodeError.

Record exn := { exn_kind : exn_class; exn_str : string }.

#[global] Instance exn_class_eq_dec : EqDecision exn_class.
Proof. solve_decision. Defined.

Inductive result (A : Type) :=
| Ok (a : A)
| Raise (e : exn).
Arguments Ok {A} a.
Arguments Raise {A} e.

(** ** The world the services act on *)

(** Calls to the collaborators, logged in program order. *)
Inductive event :=
| EvSpawn (cmd : list string) (cwd : string)
| EvKill
| EvFputObject (bucket key path content_type : string)
| EvStatus (rid status : string) (url err : option string)
    (time : option seconds)
| EvAck (delivery_tag : Z)
| EvNack (delivery_tag : Z) (requeue : bool)
| EvReject (delivery_tag : Z) (requeue : bool).

Record World := {
  files : gmap string string;            (* local files: path to content *)
  dirs : gset string;                    (* local directories *)
  objects : gmap (string * string) string; (* object store: (bucket, key) *)
  clock_reads : nat;                     (* calls to time.time() so far *)
  stats : WorkerStats;
  calls : list event;
}.

(** What the child encoder process does once started. *)
Inductive encoder_run :=
| Exits (returncode : Z) (stderr : string) (files' : gmap string string)
| Overruns (files' : gmap string string).

(** The behaviour of everything outside the program. *)
Record Env := {
  (* the n-th reading of the wall clock *)
  clock : nat → seconds;
  (* whether starting the child process on a command line in a working
     directory fails *)
  spawn_error : list string → string → option exn;
  (* the encoder on a command line, a working directory, the local files and
     the time budget *)
  encoder : list string → string → gmap string string → Z → encoder_run;
  (* the text Python prints for the float 1.0 / n, for n other than 0 *)
  str_reciprocal : Z → string;
  (* whether the coordinator answers a status update for a request with 200 *)
  status_accepted : string → string → bool;
  (* whether the object store refuses a write to (bucket, key) *)
  put_refused : string → string → bool;
  (* which of the pending concurrent tasks completes next *)
  completion : list nat;
}.

(** ** State and exception monad *)

Definition M (A : Type) : Type := Env → World → result A * World.

Definition ret {A} (a : A) : M A := λ _ w, (Ok a, w).

Definition bind {A B} (m : M A) (k : A → M B) : M B :=
  λ env w,
    match m env w with
    | (Ok a, w') => k a env w'
    | (Raise e, w') => (Raise e, w')
    end.

Definition raise {A} (e : exn) : M A := λ _ w, (Raise e, w).

(** [try: m  except Exception as e: h e]. *)
Definition try_except {A} (m : M A) (h : exn → M A) : M A :=
  λ env w,
    match m env w with
    | (Ok a, w') => (Ok a, w')
    | (Raise e, w') => h e env w'
    end.

(** [try: m  except cls as e: h e]: other exceptions propagate. *)
Definition try_except_class {A} (cls : exn_class) (m : M A) (h : exn → M A)
  : M A :=
  try_except m (λ e, if decide (exn_kind e = cls) then h e else raise e).

(** [try: m  finally: f]. *)
Definition try_finally {A} (m : M A) (f : M unit) : M A :=
  λ env w,
    match m env w with
    | (r, w') =>
        match f env w' with
        | (Ok _, w'') => (r, w'')
        | (Raise e, w'') => (Raise e, w'')
        end
    end.

#[global] Instance M_ret : MRet M := @ret.
#[global] Instance M_bind : MBind M := λ A B k m, bind m k.

Definition get_world : M World := λ _ w, (Ok w, w).
Definition get_env : M Env := λ env w, (Ok env, w).
Definition modify (f : World → World) : M unit := λ _ w, (Ok tt, f w).

Definition set_files (fs : gmap string string) (w : World) : World :=
  {| files := fs; dirs := dirs w; objects := objects w;
     clock_reads := clock_reads w; stats := stats w; calls := calls w |}.
Definition set_dirs (ds : gset string) (w : World) : World :=
  {| files := files w; dirs := ds; objects := objects w;
     clock_reads := clock_reads w; stats := stats w; calls := calls w |}.
Definition set_objects (os : gmap (string * string) string) (w : World)
  : World :=
  {| files := files w; dirs := dirs w; objects := os;
     clock_reads := clock_reads w; stats := stats w; calls := calls w |}.
Definition set_clock_reads (n : nat) (w : World) : World :=
  {| files := files w; dirs := dirs w; objects := objects w;
     clock_reads := n; stats := stats w; calls := calls w |}.
Definition set_stats (s : WorkerStats) (w : World) : World :=
  {| files := files w; dirs := dirs w; objects := objects w;
     clock_reads := clock_reads w; stats := s; calls := calls w |}.
Definition set_calls (c : list event) (w : World) : World :=
  {| files := files w; dirs := dirs w; objects := objects w;
     clock_reads := clock_reads w; stats := stats w; calls := c |}.

(** A call to a collaborator is appended to the log. *)
Definition emit (e : event) : M unit :=
  modify (λ w, set_calls (calls w ++ [e]) w).

(** [time.time()]. *)
Definition time_time : M seconds :=
  λ env w, (Ok (clock env (clock_reads w)),
            set_clock_reads (S (clock_reads w)) w).

Definition path_exists (w : World) (p : string) : bool :=
  bool_decide (is_Some (files w !! p)) || bool_decide (p ∈ dirs w).

(** [os.path.exists(p)]. *)
Definition os_path_exists (p : string) : M bool :=
  λ _ w, (Ok (path_exists w p), w).

(** The size [os.path.getsize(p)] reports; 4096 is the size of a directory
    entry. *)
Definition path_size (w : World) (p : string) : result Z :=
  match files w !! p with
  | Some content => Ok (Z.of_nat (String.length content))
  | None =>
      if bool_decide (p ∈ dirs w) then Ok 4096
      else Raise {| exn_kind := OSError;
                    exn_str := "No such file or directory" |}
  end.

(** [os.path.getsize(p)]. *)
Definition os_path_getsize (p : string) : M Z :=
  λ _ w, (path_size w p, w).

(** [os.makedirs(p, exist_ok=True)]; the local disk itself is taken to be
    healthy, so the call succeeds. *)
Definition os_makedirs (p : string) : M unit :=
  modify (λ w, set_dirs ({[p]} ∪ dirs w) w).

(** Opening [p] for writing and writing [content] to it. *)
Definition write_file (p content : string) : M unit :=
  modify (λ w, set_files (<[p := content]> (files w)) w).

Definition is_under (dir p : string) : bool :=
  bool_decide (p = dir) || String.prefix (dir +:+ "/") p.

(** [if os.path.exists(d): shutil.rmtree(d)]. *)
Definition rmtree_if_exists (d : string) : M unit :=
  modify (λ w,
    set_dirs (filter (λ p, is_under d p = false) (dirs w))
      (set_files (filter (λ kv, is_under d kv.1 = false) (files w)) w)).

Definition newline : string := String "010"%char EmptyString.

(** The text written by one [f.write(line + newline)] per element. *)
Definition unlines (lines : list string) : string :=
  foldr (λ l acc, l +:+ newline +:+ acc) EmptyString lines.

(** ** Coordinator client (src/services/api_client.py) *)

Module APIClient.

(** [update_video_status]: one PATCH per call; every failure of the call is
    caught and turned into [False]. *)
Definition update_video_status (request_id status : string)
    (video_url error_message : option string)
    (compilation_time : option seconds) : M bool :=
  emit (EvStatus request_id status video_url error_message compilation_time);;
  env ← get_env;
  mret (status_accepted env request_id status).

End APIClient.

(** ** Storage service (src/services/storage_service.py) *)

Module StorageService.

Record t := { frames_bucket : string; videos_bucket : string }.

(** [client.get_object(bucket, key)]: a missing object is an [S3Error]. *)
Definition get_object (bucket key : string) : M string :=
  w ← get_world;
  match objects w !! (bucket, key) with
  | Some data => mret data
  | None => raise {| exn_kind := S3Error; exn_str := "NoSuchKey" |}
  end.

(** [client.fput_object(bucket, key, path, content_type=...)]. *)
Definition fput_object (bucket key path content_type : string) : M unit :=
  w ← get_world;
  match files w !! path with
  | None => raise {| exn_kind := OSError;
                     exn_str := "No such file or directory" |}
  | Some data =>
      emit (EvFputObject bucket key path content_type);;
      env ← get_env;
      if put_refused env bucket key
      then raise {| exn_kind := S3Error; exn_str := "AccessDenied" |}
      else modify (λ w, set_objects (<[(bucket, key) := data]> (objects w)) w)
  end.

Definition download_frame (self : t) (request_id : string)
    (frame_number : Z) (local_path : string) : M bool :=
  try_except
    (let frame_filename :=
       request_id +:+ "/frame_" +:+ Py.format_06d frame_number +:+ ".jpg" in
     response ← get_object (frames_bucket self) frame_filename;
     os_makedirs (Py.os_path_dirname local_path);;
     write_file local_path response;;
     mret true)
    (λ _, mret false).

(** The tasks of [asyncio.gather] run to completion one after the other, in
    the order the environment's [completion] choices pick among the pending
    ones; each result is stored under the index of its task.  The semaphore
    of ten only delays the start of a task, which this order already
    covers. *)
Fixpoint run_tasks {A} (fuel : nat) (tasks : list (M A))
    (pending choices : list nat) (finished : gmap nat (result A))
    : M (gmap nat (result A)) :=
  match fuel with
  | O => mret finished
  | S fuel' =>
      let k := (hd 0 choices mod length pending)%nat in
      match pending !! k with
      | None => mret finished
      | Some i =>
          match tasks !! i return M (gmap nat (result A)) with
          | None => mret finished
          | Some task =>
              λ env w,
                let (r, w') := (task : M A) env w in
                run_tasks fuel' tasks (delete k pending) (tail choices)
                  (<[i := r]> finished) env w'
          end
      end
  end.

(** [asyncio.gather] with [return_exceptions=True]: the results come back
    in the order of the tasks, whatever the order of completion. *)
Definition gather {A} (tasks : list (M A)) : M (list (result A)) :=
  env ← get_env;
  finished ← run_tasks (length tasks) tasks (seq 0 (length tasks))
               (completion env) ∅;
  mret (omap (λ i, (finished : gmap nat (result A)) !! i)
          (seq 0 (length tasks))).

Definition frame_key (request_id : string) (frame_num : Z) : string :=
  request_id +:+ "/frame_" +:+ Py.format_06d frame_num +:+ ".jpg".

Definition download_single_frame (self : t)
    (request_id local_frame_dir : string) (frame_num : Z)
    : M (option FrameInfo) :=
  let local_path :=
    Py.os_path_join local_frame_dir
      ["frame_" +:+ Py.format_06d frame_num +:+ ".jpg"] in
  ok ← download_frame self request_id frame_num local_path;
  if ok : bool
  then mret (Some {| frame_number := frame_num;
                     frame_url := frame_key request_id frame_num;
                     local_path := Some local_path |})
  else mret None.

(** The loop keeping the results that are [FrameInfo] values. *)
Definition successful (results : list (result (option FrameInfo)))
    : list FrameInfo :=
  omap (λ r, match r with Ok (Some f) => Some f | _ => None end) results.

Definition download_all_frames (self : t) (request_id : string)
    (total_frames : Z) (temp_dir : string) : M (list FrameInfo) :=
  let local_frame_dir := Py.os_path_join temp_dir [request_id; "frames"] in
  let tasks :=
    map (download_single_frame self request_id local_frame_dir)
      (Py.range 1 (total_frames + 1)) in
  results ← gather tasks;
  let frames := successful results in
  mret (Py.sorted frame_number frames).

Definition upload_video (self : t) (request_id video_path : string)
    : M (option string) :=
  try_except
    (let video_filename := request_id +:+ "/compiled_video.mp4" in
     fput_object (videos_bucket self) video_filename video_path "video/mp4";;
     mret (Some video_filename))
    (λ _, mret None).

Definition cleanup_frames (self : t) (request_id local_frame_dir : string)
    : M unit :=
  try_except (rmtree_if_exists local_frame_dir) (λ _, mret tt).

End StorageService.

(** ** Encoder invoker (src/services/video_compiler.py) *)

Module VideoCompiler.

Record t := { ffmpeg_binary : string; temp_dir : string }.

(** [VideoQuality(str, Enum)]: a member hashes and compares as its string
    value, so the preset table is keyed by the tag strings. *)
Inductive VideoQuality := LOW | MEDIUM | HIGH | ULTRA.

Definition value (q : VideoQuality) : string :=
  match q with
  | LOW => "low"
  | MEDIUM => "medium"
  | HIGH => "high"
  | ULTRA => "ultra"
  end.

(** One row of the preset table; [scale = None] stands for a settings
    dictionary without the key [scale]. *)
Record QualitySettings := {
  crf : Z;
  preset : string;
  scale : option string;
}.

Definition low_settings : QualitySettings :=
  {| crf := 28; preset := "fast"; scale := Some "720:480" |}.
Definition medium_settings : QualitySettings :=
  {| crf := 23; preset := "medium"; scale := Some "1280:720" |}.
Definition high_settings : QualitySettings :=
  {| crf := 18; preset := "slow"; scale := Some "1920:1080" |}.
Definition ultra_settings : QualitySettings :=
  {| crf := 15; preset := "veryslow"; scale := Some "1920:1080" |}.

Definition quality_presets : gmap string QualitySettings :=
  <[value LOW := low_settings]>
    (<[value MEDIUM := medium_settings]>
       (<[value HIGH := high_settings]>
          (<[value ULTRA := ultra_settings]> ∅))).

(** [quality_presets.get(quality, quality_presets[VideoQuality.MEDIUM])]. *)
Definition quality_settings_for (quality : string) : QualitySettings :=
  default medium_settings (quality_presets !! quality).

Definition file_line (path : string) : string := "file '" +:+ path +:+ "'".
Definition duration_line (d : string) : string := "duration " +:+ d.

(** The lines written for one frame of the loop. *)
Definition frame_entry (w : World) (frame_duration : string)
    (frame : FrameInfo) : list string :=
  match local_path frame with
  | Some p =>
      if Py.truthy (Some p) && path_exists w p
      then [file_line p; duration_line frame_duration]
      else []
  | None => []
  end.

(** The line written after the loop: the last frame once more. *)
Definition last_again (frames : list FrameInfo) : list string :=
  match last frames with
  | Some frame =>
      match local_path frame with
      | Some p => if Py.truthy (Some p) then [file_line p] else []
      | None => []
      end
  | None => []
  end.

Definition manifest_lines (w : World) (frame_duration : string)
    (frames : list FrameInfo) : list string :=
  "ffconcat version 1.0"
    :: concat (map (frame_entry w frame_duration) frames)
    ++ last_again frames.

Definition _create_frame_list_file (frames : list FrameInfo)
    (list_path : string) (fps : Z) : M unit :=
  if bool_decide (fps = 0)
  then raise {| exn_kind := ZeroDivisionError;
                exn_str := "float division by zero" |}
  else
    env ← get_env;
    let frame_duration := str_reciprocal env fps in
    write_file list_path EmptyString;;
    w ← get_world;
    write_file list_path (unlines (manifest_lines w frame_duration frames)).

Definition _build_ffmpeg_command (self : t) (input_path output_path : string)
    (fps : Z) (quality_settings : QualitySettings) (output_format : string)
    : list string :=
  let cmd :=
    [ ffmpeg_binary self;
      "-f"; "concat";
      "-safe"; "0";
      "-i"; input_path;
      "-c:v"; "libx264";
      "-preset"; preset quality_settings;
      "-crf"; Py.str_int (crf quality_settings);
      "-pix_fmt"; "yuv420p";
      "-r"; Py.str_int fps;
      "-movflags"; "+faststart";
      "-y";
      output_path ] in
  match scale quality_settings with
  | Some sc => cmd ++ ["-vf"; "scale=" +:+ sc]
  | None => cmd
  end.

(** [asyncio.create_subprocess_exec] on the command line [cmd] with the
    working directory [cwd]. *)
Definition create_subprocess_exec (cmd : list string) (cwd : string)
    : M unit :=
  env ← get_env;
  match spawn_error env cmd cwd with
  | Some e => raise e
  | None => emit (EvSpawn cmd cwd)
  end.

(** [asyncio.wait_for(process.communicate(), timeout)]: the pair of the
    return code and the captured diagnostic output, or [TimeoutError]. *)
Definition wait_for_communicate (cmd : list string) (cwd : string)
    (timeout : Z) : M (Z * string) :=
  env ← get_env;
  w ← get_world;
  match encoder env cmd cwd (files w) timeout with
  | Exits returncode stderr files' =>
      modify (set_files files');;
      mret (returncode, stderr)
  | Overruns files' =>
      modify (set_files files');;
      raise {| exn_kind := TimeoutError; exn_str := EmptyString |}
  end.

Definition compile_video (self : t) (request_id : string)
    (frames : list FrameInfo) (fps : Z) (quality output_format : string)
    (max_compilation_time : Z) : M CompilationResult :=
  start_time ← time_time;
  try_except
    (match frames with
     | [] =>
         mret {| request_id := request_id; success := false;
                 video_url := None;
                 error_message := Some "No frames provided for compilation";
                 compilation_time := None; completed_at := None |}
     | _ :: _ =>
         let sorted_frames := Py.sorted frame_number frames in
         let work_dir := Py.os_path_join (temp_dir self) [request_id] in
         let output_path :=
           Py.os_path_join work_dir ["output." +:+ output_format] in
         os_makedirs work_dir;;
         let frame_list_path := Py.os_path_join work_dir ["frame_list.txt"] in
         _create_frame_list_file sorted_frames frame_list_path fps;;
         let quality_settings := quality_settings_for quality in
         let cmd :=
           _build_ffmpeg_command self frame_list_path output_path fps
             quality_settings output_format in
         create_subprocess_exec cmd work_dir;;
         try_except_class TimeoutError
           ('(returncode, stderr) ←
              wait_for_communicate cmd work_dir max_compilation_time;
            now ← time_time;
            let compilation_time := now - start_time in
            if bool_decide (returncode = 0) then
              present ← os_path_exists output_path;
              big ← (if present : bool
                     then size ← os_path_getsize output_path;
                          mret (bool_decide (1024 < size))
                     else mret false);
              if big : bool then
                mret {| request_id := request_id; success := true;
                        video_url := Some output_path;
                        error_message := None;
                        compilation_time := Some compilation_time;
                        completed_at := None |}
              else
                mret {| request_id := request_id; success := false;
                        video_url := None;
                        error_message :=
                          Some "FFmpeg completed but output file is invalid or too small";
                        compilation_time := Some compilation_time;
                        completed_at := None |}
            else
              let error_msg :=
                if bool_decide (stderr = EmptyString)
                then "Unknown FFmpeg error" else stderr in
              mret {| request_id := request_id; success := false;
                      video_url := None;
                      error_message :=
                        Some ("FFmpeg failed with code "
                              +:+ Py.str_int returncode +:+ ": " +:+ error_msg);
                      compilation_time := Some compilation_time;
                      completed_at := None |})
           (λ _,
              emit EvKill;;
              mret {| request_id := request_id; success := false;
                      video_url := None;
                      error_message :=
                        Some ("Video compilation timed out after "
                              +:+ Py.str_int max_compilation_time
                              +:+ " seconds");
                      compilation_time := None; completed_at := None |})
     end)
    (λ e,
       now ← time_time;
       let compilation_time := now - start_time in
       mret {| request_id := request_id; success := false;
               video_url := None;
               error_message := Some ("Compilation error: " +:+ exn_str e);
               compilation_time := Some compilation_time;
               completed_at := None |}).

Definition cleanup_work_directory (self : t) (request_id : string) : M unit :=
  try_except
    (rmtree_if_exists (Py.os_path_join (temp_dir self) [request_id]))
    (λ _, mret tt).

End VideoCompiler.

(** ** Settings (src/config.py): the values the worker reads *)

Record Settings := {
  s_temp_dir : string;
  s_max_compilation_time : Z;
  s_ffmpeg_binary : string;
  s_frames_bucket : string;
  s_videos_bucket : string;
}.

Definition default_settings : Settings :=
  {| s_temp_dir := "/tmp/video_processing";
     s_max_compilation_time := 300;
     s_ffmpeg_binary := "ffmpeg";
     s_frames_bucket := "video-frames";
     s_videos_bucket := "compiled-videos" |}.

(** ** Job orchestrator (main.py) *)

Module VideoProcessorWorker.

Definition video_compiler (settings : Settings) : VideoCompiler.t :=
  {| VideoCompiler.ffmpeg_binary := s_ffmpeg_binary settings;
     VideoCompiler.temp_dir := s_temp_dir settings |}.

Definition storage_service (settings : Settings) : StorageService.t :=
  {| StorageService.frames_bucket := s_frames_bucket settings;
     StorageService.videos_bucket := s_videos_bucket settings |}.

Definition update_stats (f : WorkerStats → WorkerStats) : M unit :=
  modify (λ w, set_stats (f (stats w)) w).

Definition add_active (d : Z) (s : WorkerStats) : WorkerStats :=
  {| active_jobs := active_jobs s + d;
     completed_jobs := completed_jobs s; failed_jobs := failed_jobs s |}.
Definition add_completed (s : WorkerStats) : WorkerStats :=
  {| active_jobs := active_jobs s;
     completed_jobs := completed_jobs s + 1; failed_jobs := failed_jobs s |}.
Definition add_failed (s : WorkerStats) : WorkerStats :=
  {| active_jobs := active_jobs s;
     completed_jobs := completed_jobs s; failed_jobs := failed_jobs s + 1 |}.

Definition shortfall_message (obtained : nat) (expected : Z) : string :=
  "Downloaded " +:+ Py.str_int (Z.of_nat obtained) +:+ "/"
    +:+ Py.str_int expected +:+ " frames".

Definition process_video_compilation_job (settings : Settings)
    (job : VideoCompilationJob) : M bool :=
  let request_id := job_request_id job in
  try_finally
    (try_except
       (update_stats (add_active 1);;
        APIClient.update_video_status request_id "processing" None None None;;
        frames ← StorageService.download_all_frames
                   (storage_service settings) request_id (total_frames job)
                   (s_temp_dir settings);
        if bool_decide (Z.of_nat (length frames) ≠ total_frames job) then
          let error_msg :=
            shortfall_message (length frames) (total_frames job) in
          APIClient.update_video_status request_id "failed" None
            (Some error_msg) None;;
          update_stats add_failed;;
          mret false
        else
          result ← VideoCompiler.compile_video (video_compiler settings)
                     request_id frames (fps job) (quality job)
                     (output_format job) (s_max_compilation_time settings);
          if success result && Py.truthy (video_url result) then
            (* under this guard [video_url] holds a non-empty path *)
            video_filename ← StorageService.upload_video
                               (storage_service settings) request_id
                               (default EmptyString (video_url result));
            if Py.truthy video_filename then
              APIClient.update_video_status request_id "completed"
                video_filename None (compilation_time result);;
              update_stats add_completed;;
              mret true
            else
              APIClient.update_video_status request_id "failed" None
                (Some "Failed to upload compiled video")
                (compilation_time result);;
              update_stats add_failed;;
              mret false
          else
            APIClient.update_video_status request_id "failed" None
              (error_message result) (compilation_time result);;
            update_stats add_failed;;
            mret false)
       (λ e,
          APIClient.update_video_status request_id "failed" None
            (Some ("Worker error: " +:+ exn_str e)) None;;
          update_stats add_failed;;
          mret false))
    (update_stats (add_active (-1));;
     try_except
       (VideoCompiler.cleanup_work_directory (video_compiler settings)
          request_id;;
        StorageService.cleanup_frames (storage_service settings) request_id
          (Py.os_path_join (s_temp_dir settings) [request_id; "frames"]))
       (λ _, mret tt)).

End VideoProcessorWorker.

(** ** Queue gateway (src/services/queue_consumer.py) *)

Module QueueConsumer.

(** The keyword arguments a JSON object supplies to the job constructor:
    the members named like a field, with values of the annotated types, and
    the names of all other members. *)
Record job_data := {
  d_request_id : option string;
  d_total_frames : option Z;
  d_output_format : option string;
  d_fps : option Z;
  d_quality : option string;
  d_other_keys : list string;
}.

Inductive json_value :=
| JObject (members : job_data)
| JNotObject.   (* an array, a string, a number, true, false or null *)

(** A message body, by what [json.loads(body.decode('utf-8'))] makes of
    it. *)
Inductive body :=
| NotUtf8
| NotJSON
| JSONText (v : json_value).

Definition json_loads_decode (b : body) : M json_value :=
  match b with
  | NotUtf8 => raise {| exn_kind := UnicodeDecodeError;
                        exn_str := "invalid start byte" |}
  | NotJSON => raise {| exn_kind := JSONDecodeError;
                        exn_str := "Expecting value" |}
  | JSONText v => mret v
  end.

Definition type_error (msg : string) : exn :=
  {| exn_kind := TypeError; exn_str := msg |}.

(** [VideoCompilationJob( **job_data )]: the generated constructor takes
    [request_id] and [total_frames] as required arguments, has defaults for
    the other three fields and accepts no other keyword. *)
Definition new_job (v : json_value) : M VideoCompilationJob :=
  match v with
  | JNotObject => raise (type_error "argument after ** must be a mapping")
  | JObject d =>
      match d_other_keys d with
      | k :: _ =>
          raise (type_error ("got an unexpected keyword argument '"
                             +:+ k +:+ "'"))
      | [] =>
          match d_request_id d, d_total_frames d with
          | Some rid, Some n =>
              mret {| job_request_id := rid;
                      total_frames := n;
                      output_format := default "mp4" (d_output_format d);
                      fps := default 30 (d_fps d);
                      quality := default "medium" (d_quality d) |}
          | _, _ =>
              raise (type_error "missing required positional argument")
          end
      end
  end.

(** [_process_message]: [job_handler] is the handler set by
    [set_job_handler], if any; the delivery is settled on [delivery_tag]. *)
Definition _process_message
    (job_handler : option (VideoCompilationJob → M bool))
    (delivery_tag : Z) (b : body) : M unit :=
  try_except
    (job_data ← json_loads_decode b;
     job ← new_job job_data;
     match job_handler with
     | Some handler =>
         result ← handler job;
         if result : bool
         then emit (EvAck delivery_tag)
         else emit (EvNack delivery_tag true)
     | None => emit (EvNack delivery_tag true)
     end)
    (λ e,
       if decide (exn_kind e = JSONDecodeError)
       then emit (EvReject delivery_tag false)
       else emit (EvNack delivery_tag true)).

(** The consumer as the worker wires it: the orchestrator is the job
    handler. *)
Definition worker_process_message (settings : Settings)
    (delivery_tag : Z) (b : body) : M unit :=
  _process_message
    (Some (VideoProcessorWorker.process_video_compilation_job settings))
    delivery_tag b.

End QueueConsumer.

(** ** Vocabulary of the statements *)

Module Spec.

(** Frame [i] of request [rid] is present in the frames bucket. *)
Definition retrievable (self : StorageService.t) (w : World) (rid : string)
    (i : Z) : bool :=
  bool_decide
    (is_Some (objects w !! (StorageService.frames_bucket self,
                            StorageService.frame_key rid i))).

(** The local file frame [i] is downloaded to. *)
Definition frame_path (temp_dir rid : string) (i : Z) : string :=
  Py.os_path_join (Py.os_path_join temp_dir [rid; "frames"])
    ["frame_" +:+ Py.format_06d i +:+ ".jpg"].

(** The [FrameInfo] a successful download of frame [i] returns. *)
Definition frame_at (temp_dir rid : string) (i : Z) : FrameInfo :=
  {| frame_number := i;
     frame_url := StorageService.frame_key rid i;
     local_path := Some (frame_path temp_dir rid i) |}.

(** The frames among 1..n that are retrievable, by increasing number. *)
Definition retrieved (self : StorageService.t) (w : World)
    (rid : string) (n : Z) (temp_dir : string) : list FrameInfo :=
  frame_at temp_dir rid
    <$> filter (λ i, retrievable self w rid i = true) (Py.range 1 (n + 1)).

Definition by_frame_number (a b : FrameInfo) : Prop :=
  frame_number a < frame_number b.

Definition key_le {A} (key : A → Z) (a b : A) : Prop := key a ≤ key b.

(** What the download task of frame [i] returns. *)
Definition task_result (self : StorageService.t) (w : World)
    (temp_dir rid : string) (i : Z) : option FrameInfo :=
  if retrievable self w rid i then Some (frame_at temp_dir rid i) else None.

(** [w'] differs from [w] on the local disk at most. *)
Definition same_off_disk (w w' : World) : Prop :=
  objects w' = objects w ∧ calls w' = calls w ∧ stats w' = stats w
  ∧ clock_reads w' = clock_reads w.

(** The paths and the command line [compile_video] derives from its
    arguments. *)
Definition work_dir (self : VideoCompiler.t) (rid : string) : string :=
  Py.os_path_join (VideoCompiler.temp_dir self) [rid].
Definition output_path (self : VideoCompiler.t) (rid fmt : string) : string :=
  Py.os_path_join (work_dir self rid) ["output." +:+ fmt].
Definition frame_list_path (self : VideoCompiler.t) (rid : string) : string :=
  Py.os_path_join (work_dir self rid) ["frame_list.txt"].
Definition command (self : VideoCompiler.t) (rid : string) (fps : Z)
    (quality fmt : string) : list string :=
  VideoCompiler._build_ffmpeg_command self (frame_list_path self rid)
    (output_path self rid fmt) fps
    (VideoCompiler.quality_settings_for quality) fmt.

(** The world in which the encoder is started: the clock has been read
    once, the working directory made and the manifest written. *)
Definition at_spawn (self : VideoCompiler.t) (rid : string)
    (frames : list FrameInfo) (fps : Z) (env : Env) (w : World) : World :=
  ((time_time;;
    os_makedirs (work_dir self rid);;
    VideoCompiler._create_frame_list_file
      (Py.sorted frame_number frames) (frame_list_path self rid) fps)
     env w).2.

(** What the encoder does on the run [compile_video] starts. *)
Definition encoder_run_of (self : VideoCompiler.t) (rid : string)
    (frames : list FrameInfo) (fps : Z) (quality fmt : string) (budget : Z)
    (env : Env) (w : World) : encoder_run :=
  encoder env (command self rid fps quality fmt) (work_dir self rid)
    (files (at_spawn self rid frames fps env w)) budget.

(** The output file is there and larger than 1 KiB. *)
Definition plausible_output (w : World) (path : string) : Prop :=
  path_exists w path = true
  ∧ ∃ size, path_size w path = Ok size ∧ 1024 < size.


(** The frame has a local file that is present. *)
Definition materialized (w : World) (frame : FrameInfo) : Prop :=
  ∃ p, local_path frame = Some p ∧ p ≠ EmptyString ∧ path_exists w p = true.

(** The body is the JSON text of [job]. *)
Definition body_of (job : VideoCompilationJob) : QueueConsumer.body :=
  QueueConsumer.JSONText (QueueConsumer.JObject
    {| QueueConsumer.d_request_id := Some (job_request_id job);
       QueueConsumer.d_total_frames := Some (total_frames job);
       QueueConsumer.d_output_format := Some (output_format job);
       QueueConsumer.d_fps := Some (fps job);
       QueueConsumer.d_quality := Some (quality job);
       QueueConsumer.d_other_keys := [] |}).

Definition quality_tags : list string := ["low"; "medium"; "high"; "ultra"].

End Spec.

(** ** Concrete runs *)

Module Runs.

Definition no_stats : WorkerStats :=
  {| active_jobs := 0; completed_jobs := 0; failed_jobs := 0 |}.

(** A store holding the first [n] frames of request [rid]. *)
Definition store_with (rid : string) (n : Z) : gmap (string * string) string :=
  list_to_map
    ((λ i, (("video-frames", StorageService.frame_key rid i), "jpeg"))
       <$> Py.range 1 (n + 1)).

Definition world_with (rid : string) (n : Z) : World :=
  {| files := ∅; dirs := ∅; objects := store_with rid n;
     clock_reads := 0; stats := no_stats; calls := [] |}.

(** An environment whose encoder leaves [video] at [out] and exits with
    [returncode], or overruns its budget when [overrun] is set. *)
Definition env_with (overrun : bool) (returncode : Z) (out video : string)
    : Env :=
  {| clock := λ n, 100 + 7 * Z.of_nat n;
     spawn_error := λ _ _, None;
     encoder := λ _ _ fs _,
       if overrun then Overruns fs
       else Exits returncode EmptyString (<[out := video]> fs);
     str_reciprocal := λ n, "1.0/" +:+ Py.str_int n;
     status_accepted := λ _ _, true;
     put_refused := λ _ _, false;
     completion := [2; 0; 1]%nat |}.

Definition compiler : VideoCompiler.t :=
  VideoProcessorWorker.video_compiler default_settings.

Definition job (rid : string) (n : Z) (fmt : string) : VideoCompilationJob :=
  {| job_request_id := rid; total_frames := n; output_format := fmt;
     fps := 24; quality := "high" |}.

Definition frame (i : Z) (path : string) : FrameInfo :=
  {| frame_number := i; frame_url := StorageService.frame_key "r1" i;
     local_path := Some path |}.

(** A video of 2000 bytes. *)
Definition video : string := Py.zeros 2000.

End Runs.

(** ** Vocabulary of the further properties *)

Module Obs.

Definition is_status (e : event) : bool :=
  match e with
  | EvStatus _ _ _ _ _ => true
  | _ => false
  end.

Definition is_settlement (e : event) : bool :=
  match e with
  | EvAck _ | EvNack _ _ | EvReject _ _ => true
  | _ => false
  end.

Definition is_process_event (e : event) : bool :=
  match e with
  | EvSpawn _ _ | EvKill => true
  | _ => false
  end.

(** The calls that are neither a status update nor a settlement. *)
Definition quiet (evs : list event) : Prop :=
  Forall (λ e, is_status e = false ∧ is_settlement e = false) evs.

(** What one invocation of the encoder stage may log: nothing, the start of
    one process, or that start followed by its kill. *)
Definition encoder_calls (evs : list event) : Prop :=
  evs = []
  ∨ ∃ cmd cwd, evs = [EvSpawn cmd cwd] ∨ evs = [EvSpawn cmd cwd; EvKill].

(** A result names the artifact exactly when it is a success and carries a
    message exactly when it is not. *)
Definition consistent (rid : string) (r : CompilationResult) : Prop :=
  request_id r = rid
  ∧ completed_at r = None
  ∧ if success r
    then is_Some (video_url r) ∧ error_message r = None
    else video_url r = None ∧ is_Some (error_message r).

(** The terminal status update of request [rid] for outcome [ok]. *)
Definition terminal (rid : string) (ok : bool) (e : event) : Prop :=
  if ok
  then ∃ key t, e = EvStatus rid "completed" (Some key) None t
  else ∃ msg t, e = EvStatus rid "failed" None (Some msg) t.



(** Nothing is left at or below [dir]. *)
Definition clean (dir : string) (w : World) : Prop :=
  ∀ p, is_under dir p = true → path_exists w p = false.

(** The key [upload_video] stores under. *)
Definition video_key (rid : string) : string := rid +:+ "/compiled_video.mp4".



End Obs.

(** The coordinator client's address handling (src/services/api_client.py). *)

Module APIClientUrl.

(** [__init__]: [self.base_url = base_url.rstrip('/')]. *)
Definition init (base_url : string) : string := Py.rstrip_sep base_url.

(** The address [update_video_status] sends its PATCH to. *)
Definition status_url (self_base_url request_id : string) : string :=
  self_base_url +:+ "/api/video/" +:+ request_id +:+ "/status".

(** The address [get_frames_info] reads from. *)
Definition frames_url (self_base_url request_id : string) : string :=
  self_base_url +:+ "/api/frames/" +:+ request_id.

End APIClientUrl.

(** Further concrete environments. *)

Module Cases.

(** No encoder binary: starting the process fails. *)
Definition env_no_encoder : Env :=
  {| clock := λ n, 100 + 7 * Z.of_nat n;
     spawn_error := λ _ _,
       Some {| exn_kind := OSError;
               exn_str := "No such file or directory: 'ffmpeg'" |};
     encoder := λ _ _ fs _, Overruns fs;
     str_reciprocal := λ n, "1.0/" +:+ Py.str_int n;
     status_accepted := λ _ _, true;
     put_refused := λ _ _, false;
     completion := [] |}.


End Cases.

(** * Verified properties *)

(** ** Sorting *)

Section sorting.
Context {A : Type} (key : A → Z).

Lemma insert_by_perm x l : Py.insert_by key x l ≡ₚ x :: l.
Proof.
  induction l as [|y r IH]; simpl; [done|].
  destruct (key y <? key x); [|done].
  rewrite IH. apply Permutation_swap.
Qed.

Lemma sorted_perm l : Py.sorted key l ≡ₚ l.
Proof.
  induction l as [|x r IH]; simpl; [done|].
  by rewrite insert_by_perm, IH.
Qed.

Lemma insert_by_head x l :
  Forall (λ y, key x ≤ key y) l → Py.insert_by key x l = x :: l.
Proof.
  destruct l as [|y r]; simpl; [done|].
  intros H. apply Forall_cons in H as [Hy _].
  destruct (Z.ltb_spec (key y) (key x)); [lia|done].
Qed.

(** Sorting a list that is already in key order leaves it as it is. *)
Lemma sorted_of_sorted l :
  StronglySorted (Spec.key_le key) l → Py.sorted key l = l.
Proof.
  induction 1 as [|x r Hr IH Hx]; simpl; [done|].
  rewrite IH. by apply insert_by_head.
Qed.

Lemma insert_by_sorted x l :
  StronglySorted (Spec.key_le key) l →
  StronglySorted (Spec.key_le key) (Py.insert_by key x l).
Proof.
  induction 1 as [|y r Hr IH Hy]; simpl.
  - repeat constructor.
  - destruct (Z.ltb_spec (key y) (key x)) as [Hlt|Hge].
    + constructor; [done|].
      rewrite insert_by_perm. constructor; [unfold Spec.key_le; lia|done].
    + constructor; [by constructor|].
      constructor; [done|].
      eapply Forall_impl; [exact Hy|]. unfold Spec.key_le. intros; lia.
Qed.

Lemma sorted_sorted l : StronglySorted (Spec.key_le key) (Py.sorted key l).
Proof.
  induction l as [|x r IH]; simpl; [constructor|].
  by apply insert_by_sorted.
Qed.
End sorting.

(** ** Concurrent tasks *)

Section gather.
Context {A : Type} (env : Env) (tasks : list (M A)).
Context (f : nat → result A) (P : World → Prop).
Hypothesis task_spec :
  ∀ i t w, tasks !! i = Some t → P w → (t env w).1 = f i ∧ P (t env w).2.

Lemma run_tasks_spec fuel :
  ∀ pending choices (finished : gmap nat (result A)) w,
    P w →
    fuel = length pending →
    (∀ i, i ∈ pending → (i < length tasks)%nat) →
    (∀ i, (i < length tasks)%nat →
          i ∈ pending ∨ finished !! i = Some (f i)) →
    ∃ fin w',
      StorageService.run_tasks fuel tasks pending choices finished env w
        = (Ok fin, w')
      ∧ P w'
      ∧ ∀ i, (i < length tasks)%nat → fin !! i = Some (f i).
Proof.
  induction fuel as [|fuel IH];
    intros pending choices finished w HP Hlen Hb Hcov.
  - destruct pending; [|done]. exists finished, w. split; [done|].
    split; [done|]. intros i Hi. destruct (Hcov i Hi) as [Hin|]; [|done].
    by apply elem_of_nil in Hin.
  - simpl.
    assert (Hk : (hd 0%nat choices `mod` length pending < length pending)%nat)
      by (apply Nat.mod_upper_bound; lia).
    destruct (lookup_lt_is_Some_2 _ _ Hk) as [i Hi]. rewrite Hi.
    assert (Hit : (i < length tasks)%nat)
      by (apply Hb; eapply list_elem_of_lookup_2; eauto).
    destruct (lookup_lt_is_Some_2 _ _ Hit) as [t Ht]. rewrite Ht.
    destruct (task_spec i t w Ht HP) as [Hr HP'].
    destruct (t env w) as [r w1] eqn:Et. simpl in Hr, HP'. subst r.
    apply IH; [done| | |].
    + rewrite length_delete; [|eauto]. lia.
    + intros j Hj. apply Hb. by eapply list_elem_of_delete_inv.
    + intros j Hj. destruct (decide (j = i)) as [->|Hne].
      * right. apply lookup_insert_eq.
      * destruct (Hcov j Hj) as [Hin|Hfin].
        -- left. rewrite (delete_Permutation _ _ _ Hi) in Hin.
           apply elem_of_cons in Hin as [?|?]; [done|done].
        -- right. by rewrite lookup_insert_ne.
Qed.

Lemma gather_spec w :
  P w →
  ∃ w', StorageService.gather tasks env w
          = (Ok (f <$> seq 0 (length tasks)), w')
        ∧ P w'.
Proof.
  intros HP. unfold StorageService.gather.
  destruct (run_tasks_spec (length tasks) (seq 0 (length tasks))
              (completion env) ∅ w HP) as (fin & w' & Hrun & HP' & Hfin).
  - by rewrite length_seq.
  - intros i Hi. apply elem_of_seq in Hi. lia.
  - intros i Hi. left. apply elem_of_seq. lia.
  - exists w'. split; [|done].
    unfold mbind, M_bind, bind, get_env. simpl. rewrite Hrun. simpl.
    unfold mret, M_ret, ret. f_equal. f_equal.
    assert (Hall : ∀ i, i ∈ seq 0 (length tasks) → fin !! i = Some (f i)).
    { intros i Hi. apply Hfin. apply elem_of_seq in Hi. lia. }
    revert Hall. generalize (seq 0 (length tasks)) as l.
    induction l as [|i l IHl]; intros Hall; simpl; [done|].
    rewrite Hall by (apply elem_of_cons; auto).
    simpl. f_equal. apply IHl. intros j Hj. apply Hall.
    by (apply elem_of_cons; auto).
Qed.
End gather.

(** ** Frame retrieval *)

(** A fetch succeeds exactly when the object is in the store, and touches
    the local disk only. *)

Lemma download_frame_spec self rid i path env w :
  ∃ w', StorageService.download_frame self rid i path env w
          = (Ok (Spec.retrievable self w rid i), w')
        ∧ Spec.same_off_disk w w'.
Proof.
  unfold StorageService.download_frame, Spec.retrievable, try_except,
    StorageService.get_object, StorageService.frame_key.
  unfold mbind, M_bind, bind, get_world. simpl.
  destruct (objects w !! _) as [data|] eqn:E; simpl.
  - eexists. split; [reflexivity|done].
  - eexists. split; [reflexivity|done].
Qed.

Lemma same_off_disk_trans w1 w2 w3 :
  Spec.same_off_disk w1 w2 → Spec.same_off_disk w2 w3 →
  Spec.same_off_disk w1 w3.
Proof. unfold Spec.same_off_disk. intuition congruence. Qed.

Lemma download_single_frame_spec self rid temp_dir i env w :
  ∃ w', StorageService.download_single_frame self rid
          (Py.os_path_join temp_dir [rid; "frames"]) i env w
          = (Ok (Spec.task_result self w temp_dir rid i), w')
        ∧ Spec.same_off_disk w w'.
Proof.
  unfold StorageService.download_single_frame.
  destruct (download_frame_spec self rid i
              (Spec.frame_path temp_dir rid i) env w) as (w' & Hd & Ho).
  exists w'. split; [|done].
  unfold mbind, M_bind, bind. unfold Spec.frame_path in Hd. rewrite Hd.
  unfold Spec.task_result. by destruct (Spec.retrievable self w rid i).
Qed.

Lemma retrievable_objects self w w' rid i :
  objects w' = objects w →
  Spec.retrievable self w' rid i = Spec.retrievable self w rid i.
Proof. unfold Spec.retrievable. by intros ->. Qed.

Lemma retrieved_objects self w w' rid n temp_dir :
  objects w' = objects w →
  Spec.retrieved self w' rid n temp_dir = Spec.retrieved self w rid n temp_dir.
Proof.
  intros Ho. unfold Spec.retrieved. f_equal.
  apply list_filter_iff. intros i.
  by rewrite (retrievable_objects _ _ _ _ _ Ho).
Qed.

Lemma successful_results self w temp_dir rid (l : list Z) :
  StorageService.successful
    ((λ i, Ok (Spec.task_result self w temp_dir rid i)) <$> l)
  = Spec.frame_at temp_dir rid
      <$> filter (λ i, Spec.retrievable self w rid i = true) l.
Proof.
  induction l as [|i l IH]; [done|].
  rewrite filter_cons. unfold StorageService.successful in *.
  rewrite fmap_cons. simpl. unfold Spec.task_result at 1.
  destruct (decide (Spec.retrievable self w rid i = true)) as [E|E].
  - rewrite E. simpl. by f_equal.
  - apply not_true_is_false in E. rewrite E. done.
Qed.

Lemma seqZ_increasing m n : StronglySorted Z.lt (seqZ m n).
Proof.
  destruct (Z.le_gt_cases n 0) as [Hn|Hn].
  { rewrite seqZ_nil by done. constructor. }
  rewrite <- (Z2Nat.id n) by lia.
  generalize (Z.to_nat n) as k. intros k. revert m.
  induction k as [|k IH]; intros m.
  { rewrite seqZ_nil by done. constructor. }
  rewrite seqZ_cons by lia. constructor.
  - replace (Z.pred (Z.of_nat (S k))) with (Z.of_nat k) by lia. apply IH.
  - apply Forall_forall. intros x Hx. apply elem_of_seqZ in Hx. lia.
Qed.

Lemma retrieved_increasing self w rid n temp_dir :
  StronglySorted Spec.by_frame_number (Spec.retrieved self w rid n temp_dir).
Proof.
  unfold Spec.retrieved, Py.range.
  assert (H := seqZ_increasing 1 (n + 1 - 1)).
  revert H. generalize (seqZ 1 (n + 1 - 1)) as l.
  induction l as [|i l IH]; intros H; [constructor|].
  apply StronglySorted_inv in H as [Hl Hi].
  rewrite filter_cons. destruct (decide _); [|by apply IH].
  rewrite fmap_cons. constructor; [by apply IH|].
  apply Forall_fmap, Forall_forall. intros j Hj.
  apply list_elem_of_filter in Hj as [_ Hj].
  rewrite Forall_forall in Hi. unfold Spec.by_frame_number. simpl. by apply Hi.
Qed.

Lemma by_frame_number_key_le l :
  StronglySorted Spec.by_frame_number l →
  StronglySorted (Spec.key_le frame_number) l.
Proof.
  induction 1 as [|x r Hr IH Hx]; constructor; [done|].
  eapply Forall_impl; [exact Hx|].
  unfold Spec.by_frame_number, Spec.key_le. intros; lia.
Qed.

(** The batch returns the retrievable frames in increasing order, whatever
    the completion order, and touches the local disk only. *)
Lemma download_all_frames_spec self rid n temp_dir env w :
  ∃ w',
    StorageService.download_all_frames self rid n temp_dir env w
      = (Ok (Spec.retrieved self w rid n temp_dir), w')
    ∧ Spec.same_off_disk w w'.
Proof.
  set (l := Py.range 1 (n + 1)).
  set (tasks := map (StorageService.download_single_frame self rid
                       (Py.os_path_join temp_dir [rid; "frames"])) l).
  set (f := λ k : nat,
         Ok (from_option (Spec.task_result self w temp_dir rid) None (l !! k))
           : result (option FrameInfo)).
  destruct (gather_spec env tasks f (Spec.same_off_disk w)) with (w := w)
    as (w' & Hg & Hw'); [|done|].
  { intros k t w1 Ht Hw1. unfold tasks in Ht.
    change (map ?g l) with (g <$> l) in Ht.
    rewrite list_lookup_fmap in Ht.
    destruct (l !! k) as [i|] eqn:Ei; [|done].
    cbv [fmap option_fmap option_map] in Ht. injection Ht as <-.
    destruct (download_single_frame_spec self rid temp_dir i env w1)
      as (w2 & Hd & Ho).
    unfold Py.os_path_join in Hd. cbn [fold_left] in Hd. rewrite Hd.
    simpl. split; [|by eapply same_off_disk_trans].
    unfold f. rewrite Ei. simpl. unfold Spec.task_result.
    by rewrite (retrievable_objects _ _ _ _ _ (proj1 Hw1)). }
  assert (Hres : f <$> seq 0 (length tasks)
                 = (λ i, Ok (Spec.task_result self w temp_dir rid i)) <$> l).
  { unfold tasks. rewrite length_map. apply list_eq. intros k.
    rewrite !list_lookup_fmap.
    destruct (decide (k < length l)%nat) as [Hk|Hk].
    - rewrite lookup_seq_lt by done. simpl.
      destruct (lookup_lt_is_Some_2 _ _ Hk) as [i Hi]. unfold f.
      by rewrite Hi.
    - rewrite lookup_seq_ge by lia. by rewrite lookup_ge_None_2 by lia. }
  exists w'. split; [|done].
  unfold StorageService.download_all_frames. fold l. fold tasks.
  unfold mbind, M_bind, bind. rewrite Hg, Hres, successful_results.
  unfold mret, M_ret, ret. do 2 f_equal.
  apply sorted_of_sorted, by_frame_number_key_le, retrieved_increasing.
Qed.

(** C6: for any completion order, [download_all_frames] returns exactly the
    frames whose fetch succeeds, sorted by increasing [frame_number], at most
    as many as were requested, and a failed fetch does not abort the batch. *)
Theorem download_all_frames_sorted_exact self rid n temp_dir env w :
  ∃ w',
    StorageService.download_all_frames self rid n temp_dir env w
      = (Ok (Spec.retrieved self w rid n temp_dir), w')
    ∧ StronglySorted Spec.by_frame_number (Spec.retrieved self w rid n temp_dir)
    ∧ (∀ i, i ∈ frame_number <$> Spec.retrieved self w rid n temp_dir
            ↔ 1 ≤ i ≤ n
              ∧ (StorageService.download_frame self rid i
                   (Spec.frame_path temp_dir rid i) env w).1 = Ok true)
    ∧ Z.of_nat (length (Spec.retrieved self w rid n temp_dir)) ≤ Z.max 0 n.
Proof.
  destruct (download_all_frames_spec self rid n temp_dir env w)
    as (w' & Hrun & _).
  exists w'. split; [done|].
  split; [apply retrieved_increasing|]. split.
  - intros i. unfold Spec.retrieved. rewrite <- list_fmap_compose.
    destruct (download_frame_spec self rid i
                (Spec.frame_path temp_dir rid i) env w) as (w2 & -> & _).
    simpl. split.
    + intros Hi. apply list_elem_of_fmap in Hi as (j & -> & Hj).
      apply list_elem_of_filter in Hj as [Hr Hj].
      unfold Py.range in Hj. apply elem_of_seqZ in Hj. simpl.
      split; [lia|by f_equal].
    + intros [Hi Hr]. apply list_elem_of_fmap. exists i. split; [done|].
      apply list_elem_of_filter. split; [congruence|].
      unfold Py.range. apply elem_of_seqZ. lia.
  - unfold Spec.retrieved. rewrite length_fmap.
    pose proof (length_filter (λ i, Spec.retrievable self w rid i = true)
                  (Py.range 1 (n + 1))) as Hf.
    unfold Py.range in *. rewrite length_seqZ in Hf. lia.
Qed.

(** ** Encoder invoker *)

Ltac run_monad :=
  unfold mbind, M_bind, bind, mret, M_ret, ret, raise, try_except_class,
    try_except, get_env, get_world, emit, modify; cbn beta iota.

(** C9: with an empty frame list [compile_video] fails at once with the
    message that no frames were provided; no call to a collaborator is made,
    so no encoder process is started, and no file or directory is created. *)
Theorem compile_video_no_frames self rid fps q fmt budget env w :
  ∃ w',
    VideoCompiler.compile_video self rid [] fps q fmt budget env w
      = (Ok {| request_id := rid; success := false; video_url := None;
               error_message := Some "No frames provided for compilation";
               compilation_time := None; completed_at := None |}, w')
    ∧ calls w' = calls w ∧ files w' = files w ∧ dirs w' = dirs w.
Proof. eexists. split; [reflexivity|]. by simpl. Qed.

Lemma create_frame_list_file_ok frames list_path fps env w :
  fps ≠ 0 →
  VideoCompiler._create_frame_list_file frames list_path fps env w
  = (Ok tt,
     set_files
       (<[list_path :=
            unlines (VideoCompiler.manifest_lines
                       (set_files (<[list_path := EmptyString]> (files w)) w)
                       (str_reciprocal env fps) frames)]>
          (<[list_path := EmptyString]> (files w)))
       (set_files (<[list_path := EmptyString]> (files w)) w)).
Proof.
  intros Hfps. unfold VideoCompiler._create_frame_list_file.
  rewrite bool_decide_false by done. reflexivity.
Qed.

(** A path that exists has a size. *)
Lemma path_size_exists w p :
  path_exists w p = true → ∃ size, path_size w p = Ok size.
Proof.
  unfold path_exists, path_size. destruct (files w !! p); [by eauto|].
  rewrite bool_decide_false by apply is_Some_None. simpl.
  intros ->. eauto.
Qed.

(** C5: when the encoder exits with code zero, the result is a success
    exactly when the output file exists and is larger than 1024 bytes;
    otherwise it is a failure carrying the invalid-output message. *)
Theorem compile_video_zero_exit_needs_plausible_output self rid frames fps q
    fmt budget env w stderr files' :
  frames ≠ [] → fps ≠ 0 →
  spawn_error env (Spec.command self rid fps q fmt) (Spec.work_dir self rid)
    = None →
  Spec.encoder_run_of self rid frames fps q fmt budget env w
    = Exits 0 stderr files' →
  ∃ r w',
    VideoCompiler.compile_video self rid frames fps q fmt budget env w
      = (Ok r, w')
    ∧ files w' = files'
    ∧ (success r = true
       ↔ Spec.plausible_output w' (Spec.output_path self rid fmt))
    ∧ (success r = false →
       error_message r
       = Some "FFmpeg completed but output file is invalid or too small").
Proof.
  intros Hne Hfps Hspawn Henc.
  destruct frames as [|fr frames]; [done|].
  unfold Spec.encoder_run_of, Spec.at_spawn in Henc.
  unfold VideoCompiler.compile_video.
  fold (Spec.work_dir self rid). fold (Spec.frame_list_path self rid).
  fold (Spec.output_path self rid fmt). fold (Spec.command self rid fps q fmt).
  revert Henc. run_monad. unfold time_time, os_makedirs. run_monad.
  rewrite !create_frame_list_file_ok by done. cbn beta iota.
  unfold VideoCompiler.create_subprocess_exec. run_monad.
  rewrite Hspawn. cbn beta iota.
  unfold VideoCompiler.wait_for_communicate. run_monad.
  cbn [snd fst files set_files set_dirs set_calls set_clock_reads].
  intros ->. cbn beta iota.
  unfold os_path_exists, os_path_getsize. cbn beta iota.
  rewrite bool_decide_true by done.
  match goal with
  | |- context [path_exists ?w0 ?p] => set (wf := w0)
  end.
  destruct (path_exists wf (Spec.output_path self rid fmt)) eqn:Hex.
  - destruct (path_size_exists _ _ Hex) as [size Hsz]. rewrite Hsz.
    destruct (bool_decide (1024 < size)) eqn:Hbig.
    + eexists _, _. split; [reflexivity|]. split; [done|].
      simpl. split; [|done]. split; [intros _|done].
      apply bool_decide_eq_true in Hbig.
      split; [exact Hex|]. exists size. split; [|done]. exact Hsz.
    + eexists _, _. split; [reflexivity|]. split; [done|].
      simpl. split; [|done]. split; [done|].
      intros [_ (size' & Hsz' & Hbig')].
      apply bool_decide_eq_false in Hbig.
      change (path_size wf (Spec.output_path self rid fmt) = Ok size') in Hsz'.
      congruence.
  - eexists _, _. split; [reflexivity|]. split; [done|].
    simpl. split; [|done]. split; [done|].
    intros [Hex' _]. change (path_exists wf (Spec.output_path self rid fmt) = true) in Hex'.
    congruence.
Qed.

(** C2 (what the code does on the timeout path): when the encoder overruns
    its budget the process is killed and the result carries the timeout
    message but no [compilation_time]. *)
Theorem compile_video_timeout_leaves_duration_unset self rid frames fps q fmt
    budget env w files' :
  frames ≠ [] → fps ≠ 0 →
  spawn_error env (Spec.command self rid fps q fmt) (Spec.work_dir self rid)
    = None →
  Spec.encoder_run_of self rid frames fps q fmt budget env w
    = Overruns files' →
  ∃ w',
    VideoCompiler.compile_video self rid frames fps q fmt budget env w
      = (Ok {| request_id := rid; success := false; video_url := None;
               error_message :=
                 Some ("Video compilation timed out after "
                       +:+ Py.str_int budget +:+ " seconds");
               compilation_time := None; completed_at := None |}, w')
    ∧ last (calls w') = Some EvKill.
Proof.
  intros Hne Hfps Hspawn Henc.
  destruct frames as [|fr frames]; [done|].
  unfold Spec.encoder_run_of, Spec.at_spawn in Henc.
  unfold VideoCompiler.compile_video.
  fold (Spec.work_dir self rid). fold (Spec.frame_list_path self rid).
  fold (Spec.output_path self rid fmt). fold (Spec.command self rid fps q fmt).
  revert Henc. run_monad. unfold time_time, os_makedirs. run_monad.
  rewrite !create_frame_list_file_ok by done. cbn beta iota.
  unfold VideoCompiler.create_subprocess_exec. run_monad.
  rewrite Hspawn. cbn beta iota.
  unfold VideoCompiler.wait_for_communicate. run_monad.
  cbn [snd fst files set_files set_dirs set_calls set_clock_reads].
  intros ->. cbn beta iota. cbn [exn_kind].
  rewrite decide_True by done.
  eexists. split; [reflexivity|].
  cbn [calls set_calls set_files]. apply last_snoc.
Qed.

Lemma compile_video_timeout_leaves_duration_unset_witness :
  ∃ w',
    VideoCompiler.compile_video Runs.compiler "r1"
      [Runs.frame 1 "/tmp/video_processing/r1/frames/frame_000001.jpg"]
      30 "medium" "mp4" 300
      (Runs.env_with true 0 EmptyString EmptyString) (Runs.world_with "r1" 1)
      = (Ok {| request_id := "r1"; success := false; video_url := None;
               error_message :=
                 Some "Video compilation timed out after 300 seconds";
               compilation_time := None; completed_at := None |}, w')
    ∧ last (calls w') = Some EvKill.
Proof.
  eapply (compile_video_timeout_leaves_duration_unset Runs.compiler "r1"
            [Runs.frame 1 "/tmp/video_processing/r1/frames/frame_000001.jpg"]
            30 "medium" "mp4" 300
            (Runs.env_with true 0 EmptyString EmptyString)
            (Runs.world_with "r1" 1)).
  - discriminate.
  - lia.
  - reflexivity.
  - reflexivity.
Defined.


(** ** Quality presets and the encoder command line *)

Lemma quality_settings_unknown q :
  q ∉ Spec.quality_tags →
  VideoCompiler.quality_settings_for q = VideoCompiler.medium_settings.
Proof.
  unfold Spec.quality_tags. intros Hq.
  repeat (apply not_elem_of_cons in Hq as [? Hq]).
  unfold VideoCompiler.quality_settings_for, VideoCompiler.quality_presets.
  rewrite !lookup_insert_ne by (simpl; congruence).
  by rewrite lookup_empty.
Qed.

Lemma quality_settings_rows q :
  VideoCompiler.quality_settings_for q ∈
    [VideoCompiler.low_settings; VideoCompiler.medium_settings;
     VideoCompiler.high_settings; VideoCompiler.ultra_settings].
Proof.
  destruct (decide (q ∈ Spec.quality_tags)) as [Hq|Hq].
  - unfold Spec.quality_tags in Hq.
    repeat (apply elem_of_cons in Hq as [->|Hq]);
      [| | | |by apply elem_of_nil in Hq];
      vm_compute; repeat (first [by left|right]).
  - rewrite quality_settings_unknown by done. set_solver.
Qed.

(** Every row of the preset table defines a scale. *)
Lemma every_preset_has_scale tag qs :
  VideoCompiler.quality_presets !! tag = Some qs →
  is_Some (VideoCompiler.scale qs).
Proof.
  unfold VideoCompiler.quality_presets. intros H.
  repeat (apply lookup_insert_Some in H as [[_ <-]|[_ H]]; [by eexists|]).
  by rewrite lookup_empty in H.
Qed.




(** C10: for every quality tag the command line ends with the output path
    followed by the two scale arguments, so the output path is third from the
    end and never the final argument. *)
Theorem build_ffmpeg_command_scale_follows_output self input_path output_path
    fps q fmt :
  ∃ (sc : string) (front : list string),
    VideoCompiler.scale (VideoCompiler.quality_settings_for q) = Some sc
    ∧ VideoCompiler._build_ffmpeg_command self input_path output_path fps
        (VideoCompiler.quality_settings_for q) fmt
      = (front ++ [output_path; "-vf"; "scale=" +:+ sc])%list
    ∧ length front = 20%nat
    ∧ last (VideoCompiler._build_ffmpeg_command self input_path output_path fps
              (VideoCompiler.quality_settings_for q) fmt)
      = Some ("scale=" +:+ sc).
Proof.
  assert (∃ sc, VideoCompiler.scale (VideoCompiler.quality_settings_for q)
                = Some sc) as [sc Hsc].
  { pose proof (quality_settings_rows q) as Hrow.
    repeat (apply elem_of_cons in Hrow as [->|Hrow]);
      [| | | |by apply elem_of_nil in Hrow]; by eexists. }
  exists sc.
  eexists (take 20 (VideoCompiler._build_ffmpeg_command self input_path
                      output_path fps (VideoCompiler.quality_settings_for q)
                      fmt)).
  unfold VideoCompiler._build_ffmpeg_command. rewrite Hsc.
  repeat split; reflexivity.
Qed.

(** ** The manifest *)








Example manifest_without_file :
  files (VideoCompiler._create_frame_list_file
           [Runs.frame 1 "/f/frame_000001.jpg"] "/w/frame_list.txt" 30
           (Runs.env_with false 0 EmptyString EmptyString)
           (Runs.world_with "r1" 1)).2 !! "/w/frame_list.txt"
  = Some (unlines ["ffconcat version 1.0"; "file '/f/frame_000001.jpg'"]).
Proof. vm_compute. reflexivity. Qed.

(** ** Orchestration and the queue gateway *)

Lemma try_finally_run {A} (m : M A) (f : M unit) env w r w1 w2 :
  m env w = (r, w1) → f env w1 = (Ok tt, w2) →
  try_finally m f env w = (r, w2).
Proof. intros Hm Hf. unfold try_finally. by rewrite Hm, Hf. Qed.

(** The cleanup pass always completes and makes no call to a collaborator. *)
Lemma cleanup_run settings rid env w :
  ∃ w',
    (VideoProcessorWorker.update_stats (VideoProcessorWorker.add_active (-1));;
     try_except
       (VideoCompiler.cleanup_work_directory
          (VideoProcessorWorker.video_compiler settings) rid;;
        StorageService.cleanup_frames
          (VideoProcessorWorker.storage_service settings) rid
          (Py.os_path_join (s_temp_dir settings) [rid; "frames"]))
       (λ _, mret tt)) env w = (Ok tt, w')
    ∧ calls w' = calls w
    ∧ objects w' = objects w
    ∧ stats w' = VideoProcessorWorker.add_active (-1) (stats w).
Proof. eexists. split; [reflexivity|]. by simpl. Qed.

Lemma string_app_assoc (s1 s2 s3 : string) :
  (s1 +:+ s2) +:+ s3 = s1 +:+ (s2 +:+ s3).
Proof.
  induction s1 as [|a s1 IH]; [done|].
  change (String a ((s1 +:+ s2) +:+ s3) = String a (s1 +:+ (s2 +:+ s3))).
  by rewrite IH.
Qed.

Lemma shortfall_message_counts obtained expected :
  Py.contains
    (Py.str_int (Z.of_nat obtained) +:+ "/" +:+ Py.str_int expected)
    (VideoProcessorWorker.shortfall_message obtained expected).
Proof.
  exists "Downloaded ", " frames".
  unfold VideoProcessorWorker.shortfall_message.
  by rewrite !string_app_assoc.
Qed.

(** The orchestrator on a retrieval shortfall. *)
Lemma shortfall_run settings job env w :
  let rid := job_request_id job in
  let obtained :=
    length (Spec.retrieved (VideoProcessorWorker.storage_service settings) w
              rid (total_frames job) (s_temp_dir settings)) in
  Z.of_nat obtained ≠ total_frames job →
  ∃ w',
    VideoProcessorWorker.process_video_compilation_job settings job env w
      = (Ok false, w')
    ∧ calls w'
      = (calls w
         ++ [EvStatus rid "processing" None None None;
             EvStatus rid "failed" None
               (Some (VideoProcessorWorker.shortfall_message obtained
                        (total_frames job))) None])%list
    ∧ failed_jobs (stats w') = failed_jobs (stats w) + 1
    ∧ active_jobs (stats w') = active_jobs (stats w).
Proof.
  intros rid obtained Hshort.
  unfold VideoProcessorWorker.process_video_compilation_job. fold rid.
  match goal with
  | |- context [try_finally ?m ?f] =>
      assert (∃ w1, m env w = (Ok false, w1)
                ∧ calls w1
                  = (calls w
                     ++ [EvStatus rid "processing" None None None;
                         EvStatus rid "failed" None
                           (Some (VideoProcessorWorker.shortfall_message
                                    obtained (total_frames job))) None])%list
                ∧ stats w1
                  = VideoProcessorWorker.add_failed
                      (VideoProcessorWorker.add_active 1 (stats w)))
        as (w1 & Hm & Hcalls & Hstats)
  end.
  { unfold VideoProcessorWorker.update_stats, APIClient.update_video_status.
    run_monad.
    match goal with
    | |- context [StorageService.download_all_frames ?s ?r ?n ?t ?e ?w0] =>
        destruct (download_all_frames_spec s r n t e w0)
          as (w3 & Hd & Ho & Hc & Hs & _);
        rewrite Hd;
        rewrite (retrieved_objects s w w0) by reflexivity
    end.
    cbn beta iota. fold obtained.
    rewrite bool_decide_true by done. cbn beta iota.
    eexists. split; [reflexivity|].
    cbn [calls stats set_calls set_stats] in *.
    rewrite Hc, Hs. split; [|done]. by rewrite <- app_assoc. }
  destruct (cleanup_run settings rid env w1) as (w' & Hf & Hc' & _ & Hs').
  exists w'. split; [by eapply try_finally_run|].
  rewrite Hc', Hs', Hstats. split; [done|]. simpl. split; lia.
Qed.

(** C4: when fewer frames than [total_frames] are retrieved, the coordinator
    is told the job failed with a message holding obtained/expected, the
    orchestrator returns failure, and the gateway negatively acknowledges the
    delivery with requeue. *)
Theorem retrieval_shortfall_fails_and_requeues settings job tag env w :
  let rid := job_request_id job in
  let obtained :=
    length (Spec.retrieved (VideoProcessorWorker.storage_service settings) w
              rid (total_frames job) (s_temp_dir settings)) in
  Z.of_nat obtained < total_frames job →
  ∃ w' msg,
    VideoProcessorWorker.process_video_compilation_job settings job env w
      = (Ok false, w')
    ∧ calls w'
      = (calls w
         ++ [EvStatus rid "processing" None None None;
             EvStatus rid "failed" None (Some msg) None])%list
    ∧ Py.contains
        (Py.str_int (Z.of_nat obtained) +:+ "/"
           +:+ Py.str_int (total_frames job)) msg
    ∧ ∃ w'',
        QueueConsumer.worker_process_message settings tag (Spec.body_of job)
          env w = (Ok tt, w'')
        ∧ calls w'' = (calls w' ++ [EvNack tag true])%list.
Proof.
  intros rid obtained Hlt.
  destruct (shortfall_run settings job env w) as (w' & Hrun & Hcalls & _);
    [fold rid; fold obtained; lia|].
  exists w', (VideoProcessorWorker.shortfall_message obtained
                (total_frames job)).
  split; [exact Hrun|]. split; [exact Hcalls|].
  split; [apply shortfall_message_counts|].
  unfold QueueConsumer.worker_process_message, QueueConsumer._process_message.
  destruct job as [jrid n fmt jfps jq]. simpl in *.
  unfold try_except. unfold mbind at 1. unfold M_bind, bind at 1.
  cbn [QueueConsumer.json_loads_decode Spec.body_of mret M_ret ret].
  unfold mbind at 1. unfold M_bind, bind at 1.
  cbn [QueueConsumer.new_job QueueConsumer.d_other_keys
       QueueConsumer.d_request_id QueueConsumer.d_total_frames
       QueueConsumer.d_output_format QueueConsumer.d_fps
       QueueConsumer.d_quality default from_option mret M_ret ret].
  unfold mbind at 1. unfold M_bind, bind at 1.
  unfold id. rewrite Hrun. eexists. split; [reflexivity|]. reflexivity.
Qed.

Lemma retrieval_shortfall_fails_and_requeues_witness :
  ∃ w' msg,
    VideoProcessorWorker.process_video_compilation_job default_settings
      (Runs.job "r2" 5 "mp4")
      (Runs.env_with false 0 EmptyString EmptyString) (Runs.world_with "r2" 4)
      = (Ok false, w')
    ∧ calls w'
      = [EvStatus "r2" "processing" None None None;
         EvStatus "r2" "failed" None (Some msg) None]
    ∧ Py.contains "4/5" msg
    ∧ ∃ w'',
        QueueConsumer.worker_process_message default_settings 1
          (Spec.body_of (Runs.job "r2" 5 "mp4"))
          (Runs.env_with false 0 EmptyString EmptyString)
          (Runs.world_with "r2" 4) = (Ok tt, w'')
        ∧ calls w'' = (calls w' ++ [EvNack 1 true])%list.
Proof.
  apply (retrieval_shortfall_fails_and_requeues default_settings
           (Runs.job "r2" 5 "mp4") 1
           (Runs.env_with false 0 EmptyString EmptyString)
           (Runs.world_with "r2" 4)).
  vm_compute. reflexivity.
Defined.

Lemma compile_video_zero_exit_needs_plausible_output_witness :
  ∃ r w',
    VideoCompiler.compile_video Runs.compiler "r1"
      [Runs.frame 1 "/tmp/video_processing/r1/frames/frame_000001.jpg"]
      30 "medium" "mp4" 300
      (Runs.env_with false 0 "/tmp/video_processing/r1/output.mp4" "tiny")
      (Runs.world_with "r1" 1) = (Ok r, w')
    ∧ files w'
      = <["/tmp/video_processing/r1/output.mp4" := "tiny"]>
          (files (Spec.at_spawn Runs.compiler "r1"
                    [Runs.frame 1
                       "/tmp/video_processing/r1/frames/frame_000001.jpg"]
                    30 (Runs.env_with false 0
                          "/tmp/video_processing/r1/output.mp4" "tiny")
                    (Runs.world_with "r1" 1)))
    ∧ (success r = true
       ↔ Spec.plausible_output w' (Spec.output_path Runs.compiler "r1" "mp4"))
    ∧ (success r = false →
       error_message r
       = Some "FFmpeg completed but output file is invalid or too small").
Proof.
  apply (compile_video_zero_exit_needs_plausible_output Runs.compiler "r1"
           [Runs.frame 1 "/tmp/video_processing/r1/frames/frame_000001.jpg"]
           30 "medium" "mp4" 300
           (Runs.env_with false 0 "/tmp/video_processing/r1/output.mp4" "tiny")
           (Runs.world_with "r1" 1) EmptyString).
  - discriminate.
  - lia.
  - reflexivity.
  - reflexivity.
Defined.

(** The run of the witness above reports failure. *)
Example zero_exit_tiny_output_fails :
  (VideoCompiler.compile_video Runs.compiler "r1"
     [Runs.frame 1 "/tmp/video_processing/r1/frames/frame_000001.jpg"]
     30 "medium" "mp4" 300
     (Runs.env_with false 0 "/tmp/video_processing/r1/output.mp4" "tiny")
     (Runs.world_with "r1" 1)).1
  = Ok {| request_id := "r1"; success := false; video_url := None;
          error_message :=
            Some "FFmpeg completed but output file is invalid or too small";
          compilation_time := Some 7; completed_at := None |}.
Proof. vm_compute. reflexivity. Qed.

(** C3 (what the code does): a successful job with output format webm is
    uploaded, and reported, under the key ending in mp4; nothing is stored
    under the key ending in webm. *)
Theorem webm_job_is_stored_under_mp4_key :
  ∃ w',
    VideoProcessorWorker.process_video_compilation_job default_settings
      (Runs.job "r1" 3 "webm")
      (Runs.env_with false 0 "/tmp/video_processing/r1/output.webm" Runs.video)
      (Runs.world_with "r1" 3) = (Ok true, w')
    ∧ calls w'
      = [EvStatus "r1" "processing" None None None;
         EvSpawn
           ["ffmpeg"; "-f"; "concat"; "-safe"; "0"; "-i";
            "/tmp/video_processing/r1/frame_list.txt"; "-c:v"; "libx264";
            "-preset"; "slow"; "-crf"; "18"; "-pix_fmt"; "yuv420p"; "-r";
            "24"; "-movflags"; "+faststart"; "-y";
            "/tmp/video_processing/r1/output.webm"; "-vf"; "scale=1920:1080"]
           "/tmp/video_processing/r1";
         EvFputObject "compiled-videos" "r1/compiled_video.mp4"
           "/tmp/video_processing/r1/output.webm" "video/mp4";
         EvStatus "r1" "completed" (Some "r1/compiled_video.mp4") None
           (Some 7)]
    ∧ objects w' !! ("compiled-videos", "r1/compiled_video.mp4")
      = Some Runs.video
    ∧ objects w' !! ("compiled-videos", "r1/compiled_video.webm") = None.
Proof. eexists. split; [vm_compute; reflexivity|]. by vm_compute. Qed.

(** The key of an upload never depends on the output format. *)
Lemma upload_video_key self rid path env w key w' :
  StorageService.upload_video self rid path env w = (Ok (Some key), w') →
  key = rid +:+ "/compiled_video.mp4".
Proof.
  unfold StorageService.upload_video, StorageService.fput_object.
  run_monad.
  destruct (files w !! path); cbn beta iota; [|by intros [=]].
  destruct (put_refused env _ _); cbn beta iota; by intros [=].
Qed.

(** C1 (what the code does): a body that is valid JSON but lacks
    [request_id] is negatively acknowledged with requeue, whatever the
    handler. *)
Theorem missing_request_id_is_requeued handler tag n env w :
  QueueConsumer._process_message handler tag
    (QueueConsumer.JSONText (QueueConsumer.JObject
       {| QueueConsumer.d_request_id := None;
          QueueConsumer.d_total_frames := Some n;
          QueueConsumer.d_output_format := None;
          QueueConsumer.d_fps := None;
          QueueConsumer.d_quality := None;
          QueueConsumer.d_other_keys := [] |})) env w
  = (Ok tt, set_calls (calls w ++ [EvNack tag true]) w).
Proof. reflexivity. Qed.

(** Every failure of the job constructor is requeued; only a body that is
    not JSON is rejected for good. *)
Lemma constructor_failure_is_requeued handler tag v e env w :
  QueueConsumer.new_job v env w = (Raise e, w) →
  exn_kind e = TypeError →
  QueueConsumer._process_message handler tag (QueueConsumer.JSONText v) env w
  = (Ok tt, set_calls (calls w ++ [EvNack tag true]) w).
Proof.
  intros Hnew Hkind. unfold QueueConsumer._process_message.
  run_monad. cbn [QueueConsumer.json_loads_decode]. run_monad.
  rewrite Hnew. cbn beta iota. rewrite Hkind.
  by rewrite decide_False by done.
Qed.

Lemma invalid_json_is_rejected handler tag env w :
  QueueConsumer._process_message handler tag QueueConsumer.NotJSON env w
  = (Ok tt, set_calls (calls w ++ [EvReject tag false]) w).
Proof. reflexivity. Qed.

(** * Further properties *)

Lemma app_empty_r_inv (s b : string) : s +:+ b = EmptyString → b = EmptyString.
Proof.
  destruct s as [|a s]; [exact id|].
  change (String a (s +:+ b) = EmptyString → b = EmptyString). discriminate.
Qed.

Lemma join_step_nonempty d b : b ≠ EmptyString → Py.join_step d b ≠ EmptyString.
Proof.
  intros Hb. unfold Py.join_step.
  destruct (Py.starts_with_sep b); [done|].
  destruct (_ || _); intros H.
  - by apply app_empty_r_inv in H.
  - apply app_empty_r_inv in H. discriminate H.
Qed.


(** ** The encoder stage, path by path *)

Ltac enter_compile_video :=
  unfold VideoCompiler.compile_video;
  run_monad; unfold time_time, os_makedirs; run_monad.

Lemma truthy_nonempty s : s ≠ EmptyString → Py.truthy (Some s) = true.
Proof. intros H. unfold Py.truthy. by rewrite bool_decide_false. Qed.

Lemma output_path_truthy d fmt :
  Py.truthy (Some (Py.os_path_join d ["output." +:+ fmt])) = true.
Proof.
  apply truthy_nonempty. unfold Py.os_path_join. cbn [fold_left].
  apply join_step_nonempty. discriminate.
Qed.

(** Whatever happens, [compile_video] returns a consistent result, logs at
    most the start and the kill of one process, and leaves the counters and
    the object store alone. *)
Lemma compile_video_frame self rid frames fps q fmt budget env w :
  ∃ r w' evs,
    VideoCompiler.compile_video self rid frames fps q fmt budget env w
      = (Ok r, w')
    ∧ calls w' = (calls w ++ evs)%list
    ∧ Obs.encoder_calls evs
    ∧ stats w' = stats w
    ∧ objects w' = objects w
    ∧ Obs.consistent rid r
    ∧ (success r = true → Py.truthy (video_url r) = true).
Proof.
  destruct frames as [|fr frames].
  { eexists _, _, []. split; [reflexivity|]. simpl.
    rewrite app_nil_r. repeat split; eauto; try done. by left. }
  enter_compile_video.
  unfold VideoCompiler._create_frame_list_file.
  destruct (bool_decide (fps = 0)).
  { run_monad. eexists _, _, []. split; [reflexivity|]. simpl.
    rewrite app_nil_r. repeat split; eauto; try done. by left. }
  run_monad. unfold write_file. run_monad.
  unfold VideoCompiler.create_subprocess_exec. run_monad.
  destruct (spawn_error env _ _) as [e|].
  { cbn beta iota. eexists _, _, []. split; [reflexivity|]. simpl.
    rewrite app_nil_r. repeat split; eauto; try done. by left. }
  cbn beta iota.
  unfold VideoCompiler.wait_for_communicate. run_monad.
  destruct (encoder env _ _ _ _) as [rc stderr fs'|fs']; cbn beta iota.
  - unfold os_path_exists, os_path_getsize. cbn beta iota.
    destruct (bool_decide (rc = 0)); cbn beta iota.
    + match goal with
      | |- context [path_exists ?w0 ?p] => destruct (path_exists w0 p) eqn:Hex
      end; cbn beta iota.
      * destruct (path_size_exists _ _ Hex) as [sz ->]. cbn beta iota.
        destruct (bool_decide (1024 < sz)); cbn beta iota;
          eexists _, _, [EvSpawn _ _]; (split; [reflexivity|]);
          cbn [calls stats objects success video_url error_message
               request_id completed_at set_calls set_files set_dirs
               set_clock_reads Obs.consistent];
          repeat split; eauto; try done; try (right; eauto);
          intros _; apply output_path_truthy.
      * eexists _, _, [EvSpawn _ _]. split; [reflexivity|]. simpl.
        repeat split; eauto; try done. right; eauto.
    + eexists _, _, [EvSpawn _ _]. split; [reflexivity|]. simpl.
      repeat split; eauto; try done. right; eauto.
  - cbn [exn_kind]. rewrite decide_True by done. cbn beta iota.
    eexists _, _, [EvSpawn _ _; EvKill]. split; [reflexivity|]. simpl.
    rewrite <- app_assoc. repeat split; eauto; try done. right; eauto.
Qed.

Ltac fold_paths :=
  repeat match goal with
  | |- context [Py.os_path_join (VideoCompiler.temp_dir ?s) [?r]] =>
      fold (Spec.work_dir s r)
  | |- context [Py.os_path_join (Spec.work_dir ?s ?r) ["frame_list.txt"]] =>
      fold (Spec.frame_list_path s r)
  | |- context [Py.os_path_join (Spec.work_dir ?s ?r) ["output." +:+ ?f]] =>
      fold (Spec.output_path s r f)
  | |- context [VideoCompiler._build_ffmpeg_command ?s
                  (Spec.frame_list_path ?s ?r) (Spec.output_path ?s ?r ?f)
                  ?fps (VideoCompiler.quality_settings_for ?q) ?f] =>
      fold (Spec.command s r fps q f)
  end.






(** X1: on every path [compile_video] returns, never raises, and its result
    is consistent: it carries the request id, names an artifact and no error
    exactly when it is a success, and an error and no artifact otherwise. *)
Theorem compile_video_result_consistent self rid frames fps q fmt budget env w :
  ∃ r w',
    VideoCompiler.compile_video self rid frames fps q fmt budget env w
      = (Ok r, w')
    ∧ request_id r = rid
    ∧ (success r = true → is_Some (video_url r) ∧ error_message r = None)
    ∧ (success r = false → video_url r = None ∧ is_Some (error_message r)).
Proof.
  destruct (compile_video_frame self rid frames fps q fmt budget env w)
    as (r & w' & evs & Hrun & _ & _ & _ & _ & (Hrid & _ & Hres) & _).
  exists r, w'. split; [done|]. split; [done|].
  destruct (success r); split; intros; done.
Qed.




(** X4: when the encoder cannot be started the result is a failure whose
    message is "Compilation error: " followed by the text of the exception,
    the elapsed time is recorded, and no process start is logged. *)
Theorem compile_video_spawn_failure self rid frames fps q fmt budget env w e :
  frames ≠ [] → fps ≠ 0 →
  spawn_error env (Spec.command self rid fps q fmt) (Spec.work_dir self rid)
    = Some e →
  ∃ w',
    VideoCompiler.compile_video self rid frames fps q fmt budget env w
      = (Ok {| request_id := rid; success := false; video_url := None;
               error_message := Some ("Compilation error: " +:+ exn_str e);
               compilation_time :=
                 Some (clock env (S (clock_reads w))
                       - clock env (clock_reads w));
               completed_at := None |}, w')
    ∧ calls w' = calls w.
Proof.
  intros Hne Hfps Hspawn.
  destruct frames as [|fr frames]; [done|].
  enter_compile_video.
  rewrite !create_frame_list_file_ok by exact Hfps. cbn beta iota.
  unfold VideoCompiler.create_subprocess_exec. run_monad.
  fold_paths. rewrite Hspawn. cbn beta iota.
  eexists. split; [reflexivity|]. reflexivity.
Qed.

(** X5: with a frame rate of zero and at least one frame, the working
    directory is made but the division fails before the manifest is opened:
    the result is a "Compilation error" failure with the elapsed time, no
    file is written and no encoder process is started. *)
Theorem compile_video_zero_fps self rid frames q fmt budget env w :
  frames ≠ [] →
  ∃ w' msg,
    VideoCompiler.compile_video self rid frames 0 q fmt budget env w
      = (Ok {| request_id := rid; success := false; video_url := None;
               error_message := Some ("Compilation error: " +:+ msg);
               compilation_time :=
                 Some (clock env (S (clock_reads w))
                       - clock env (clock_reads w));
               completed_at := None |}, w')
    ∧ calls w' = calls w
    ∧ files w' = files w
    ∧ dirs w' = {[Spec.work_dir self rid]} ∪ dirs w.
Proof.
  intros Hne. destruct frames as [|fr frames]; [done|].
  enter_compile_video. unfold VideoCompiler._create_frame_list_file.
  rewrite bool_decide_true by done. run_monad.
  eexists _, _. split; [reflexivity|]. done.
Qed.

(** ** Order of the frames *)

Lemma NoDup_fmap_inj_on {A B} (f : A → B) (l : list A) x y :
  NoDup (f <$> l) → x ∈ l → y ∈ l → f x = f y → x = y.
Proof.
  induction l as [|a l IH]; intros Hnd Hx Hy Hf.
  { by apply elem_of_nil in Hx. }
  rewrite fmap_cons in Hnd. apply NoDup_cons in Hnd as [Ha Hnd].
  apply elem_of_cons in Hx as [->|Hx]; apply elem_of_cons in Hy as [->|Hy].
  - done.
  - exfalso. apply Ha. rewrite Hf. by apply list_elem_of_fmap_2.
  - exfalso. apply Ha. rewrite <- Hf. by apply list_elem_of_fmap_2.
  - by apply IH.
Qed.

Lemma sorted_permutation {A} (key : A → Z) (l l' : list A) :
  l ≡ₚ l' → NoDup (key <$> l) → Py.sorted key l = Py.sorted key l'.
Proof.
  intros Hp Hnd.
  apply (StronglySorted_unique_strong (Spec.key_le key)).
  - intros x1 x2 H1 H2 H12 H21.
    rewrite sorted_perm in H1. rewrite sorted_perm, <- Hp in H2.
    apply (NoDup_fmap_inj_on key l); [done..|].
    unfold Spec.key_le in *. lia.
  - apply sorted_sorted.
  - apply sorted_sorted.
  - by rewrite !sorted_perm.
Qed.

(** X6: [compile_video] sorts its frames before anything else, so for frames
    with distinct frame numbers the order in which they are passed does not
    matter: any rearrangement gives the same result and the same world. *)
Theorem compile_video_order_irrelevant self rid frames frames' fps q fmt budget
    env w :
  frames ≡ₚ frames' →
  NoDup (frame_number <$> frames) →
  VideoCompiler.compile_video self rid frames fps q fmt budget env w
  = VideoCompiler.compile_video self rid frames' fps q fmt budget env w.
Proof.
  intros Hp Hnd. pose proof (sorted_permutation frame_number _ _ Hp Hnd) as Hs.
  destruct frames as [|f1 l1], frames' as [|f2 l2].
  - done.
  - by apply Permutation_nil_cons in Hp.
  - symmetry in Hp. by apply Permutation_nil_cons in Hp.
  - unfold VideoCompiler.compile_video. by rewrite Hs.
Qed.

Lemma compile_video_order_irrelevant_witness :
  VideoCompiler.compile_video Runs.compiler "r1"
    [Runs.frame 2 "/f/frame_000002.jpg"; Runs.frame 1 "/f/frame_000001.jpg"]
    30 "medium" "mp4" 300
    (Runs.env_with false 0 "/tmp/video_processing/r1/output.mp4" Runs.video)
    (Runs.world_with "r1" 2)
  = VideoCompiler.compile_video Runs.compiler "r1"
      [Runs.frame 1 "/f/frame_000001.jpg"; Runs.frame 2 "/f/frame_000002.jpg"]
      30 "medium" "mp4" 300
      (Runs.env_with false 0 "/tmp/video_processing/r1/output.mp4" Runs.video)
      (Runs.world_with "r1" 2).
Proof.
  apply compile_video_order_irrelevant.
  - apply Permutation_swap.
  - cbn. apply NoDup_cons. split; [|apply NoDup_singleton].
    intros H%list_elem_of_singleton. discriminate H.
Defined.

(** ** The storage service *)


(** X8: [upload_video] never raises and never touches the local disk.  It
    returns the key [{request_id}/compiled_video.mp4] exactly when the local
    file exists and the store accepts the write, and then the videos bucket
    holds the file's bytes under that key; otherwise it returns [None] and
    the store is unchanged. *)
Theorem upload_video_outcome self rid path env w :
  ∃ o w',
    StorageService.upload_video self rid path env w = (Ok o, w')
    ∧ files w' = files w ∧ dirs w' = dirs w
    ∧ match o with
      | Some key =>
          key = Obs.video_key rid
          ∧ put_refused env (StorageService.videos_bucket self) key = false
          ∧ ∃ data,
              files w !! path = Some data
              ∧ objects w'
                = <[(StorageService.videos_bucket self, key) := data]>
                    (objects w)
      | None =>
          objects w' = objects w
          ∧ (files w !! path = None
             ∨ put_refused env (StorageService.videos_bucket self)
                 (Obs.video_key rid) = true)
      end.
Proof.
  unfold StorageService.upload_video, StorageService.fput_object.
  run_monad. fold (Obs.video_key rid).
  destruct (files w !! path) as [data|] eqn:Hf; cbn beta iota.
  - destruct (put_refused env _ _) eqn:Hp; cbn beta iota.
    + eexists None, _. split; [reflexivity|]. simpl. eauto.
    + eexists (Some _), _. split; [reflexivity|]. simpl.
      repeat split; eauto.
  - eexists None, _. split; [reflexivity|]. simpl. eauto.
Qed.

(** The upload, with what it logs and what it stores. *)
Lemma upload_video_frame self rid path env w :
  ∃ o w' evs,
    StorageService.upload_video self rid path env w = (Ok o, w')
    ∧ calls w' = (calls w ++ evs)%list
    ∧ Obs.quiet evs
    ∧ stats w' = stats w
    ∧ files w' = files w ∧ dirs w' = dirs w
    ∧ ((o = None ∧ objects w' = objects w)
       ∨ (o = Some (Obs.video_key rid)
          ∧ ∃ data,
              objects w'
              = <[(StorageService.videos_bucket self, Obs.video_key rid)
                    := data]> (objects w))).
Proof.
  unfold StorageService.upload_video, StorageService.fput_object.
  run_monad. fold (Obs.video_key rid).
  destruct (files w !! path) as [data|] eqn:Hf; cbn beta iota.
  - destruct (put_refused env _ _) eqn:Hp; cbn beta iota;
      eexists _, _, [EvFputObject _ _ _ _]; (split; [reflexivity|]); simpl;
      (split; [done|]); (split; [by repeat constructor|]);
      repeat (split; [done|]); [by left|right; eauto].
  - eexists _, _, []. split; [reflexivity|]. simpl. rewrite app_nil_r.
    split; [done|]. split; [constructor|]. repeat (split; [done|]). by left.
Qed.

(** X9: with nothing to fetch (a frame count of zero or less)
    [download_all_frames] returns the empty list and leaves the world
    untouched. *)
Theorem download_all_frames_nothing_requested self rid n temp_dir env w :
  n ≤ 0 →
  StorageService.download_all_frames self rid n temp_dir env w = (Ok [], w).
Proof.
  intros Hn. unfold StorageService.download_all_frames, Py.range.
  rewrite seqZ_nil by lia. reflexivity.
Qed.

Lemma download_all_frames_nothing_requested_witness :
  StorageService.download_all_frames
    (VideoProcessorWorker.storage_service default_settings) "r1" 0
    "/tmp/video_processing"
    (Runs.env_with false 0 EmptyString EmptyString) (Runs.world_with "r1" 3)
  = (Ok [], Runs.world_with "r1" 3).
Proof. apply download_all_frames_nothing_requested. lia. Defined.

(** ** What the batch leaves on the disk *)

Section gather_post.
Context {A : Type} (env : Env) (tasks : list (M A)).
Context (P : World → Prop) (Q : nat → World → Prop).
Hypothesis task_post :
  ∀ i t w, tasks !! i = Some t → P w → P (t env w).2 ∧ Q i (t env w).2.
Hypothesis post_stable :
  ∀ i j t w, tasks !! j = Some t → P w → Q i w → Q i (t env w).2.

Lemma run_tasks_post fuel :
  ∀ pending choices (finished : gmap nat (result A)) w,
    P w →
    fuel = length pending →
    (∀ i, i ∈ pending → (i < length tasks)%nat) →
    (∀ i, (i < length tasks)%nat → i ∈ pending ∨ Q i w) →
    let w' :=
      (StorageService.run_tasks fuel tasks pending choices finished env w).2 in
    P w' ∧ ∀ i, (i < length tasks)%nat → Q i w'.
Proof.
  induction fuel as [|fuel IH];
    intros pending choices finished w HP Hlen Hb Hcov.
  - destruct pending; [|done]. simpl. split; [done|].
    intros i Hi. destruct (Hcov i Hi) as [Hin|]; [|done].
    by apply elem_of_nil in Hin.
  - simpl.
    assert (Hk : (hd 0%nat choices `mod` length pending < length pending)%nat)
      by (apply Nat.mod_upper_bound; lia).
    destruct (lookup_lt_is_Some_2 _ _ Hk) as [i Hi]. rewrite Hi.
    assert (Hit : (i < length tasks)%nat)
      by (apply Hb; eapply list_elem_of_lookup_2; eauto).
    destruct (lookup_lt_is_Some_2 _ _ Hit) as [t Ht]. rewrite Ht.
    destruct (task_post i t w Ht HP) as [HP' HQ].
    pose proof (λ j, post_stable j i t w Ht HP) as Hst.
    destruct (t env w) as [r w1] eqn:Et. simpl in HP', HQ, Hst.
    apply IH; [done| | |].
    + rewrite length_delete; [|eauto]. lia.
    + intros j Hj. apply Hb. by eapply list_elem_of_delete_inv.
    + intros j Hj. destruct (decide (j = i)) as [->|Hne]; [by right|].
      destruct (Hcov j Hj) as [Hin|HQj]; [|right; by apply Hst].
      left. rewrite (delete_Permutation _ _ _ Hi) in Hin.
      apply elem_of_cons in Hin as [?|?]; done.
Qed.

Lemma gather_post w :
  P w →
  let w' := (StorageService.gather tasks env w).2 in
  P w' ∧ ∀ i, (i < length tasks)%nat → Q i w'.
Proof.
  intros HP. unfold StorageService.gather.
  pose proof (run_tasks_post (length tasks) (seq 0 (length tasks))
                (completion env) ∅ w HP) as H.
  unfold mbind, M_bind, bind, get_env. simpl.
  destruct (StorageService.run_tasks _ _ _ _ _ env w) as [[fin|e] w1];
    simpl in *; apply H.
  all: try by rewrite length_seq.
  all: try (intros i Hi; apply elem_of_seq in Hi; lia).
  all: intros i Hi; left; apply elem_of_seq; lia.
Qed.
End gather_post.

Lemma frame_path_nonempty temp_dir rid i :
  Spec.frame_path temp_dir rid i ≠ EmptyString.
Proof.
  unfold Spec.frame_path, Py.os_path_join. cbn [fold_left].
  apply join_step_nonempty. discriminate.
Qed.

Lemma download_single_frame_post self rid temp_dir i env w :
  let w' := (StorageService.download_single_frame self rid
               (Py.os_path_join temp_dir [rid; "frames"]) i env w).2 in
  (∀ p, path_exists w p = true → path_exists w' p = true)
  ∧ objects w' = objects w
  ∧ (Spec.retrievable self w rid i = true →
     path_exists w' (Spec.frame_path temp_dir rid i) = true).
Proof.
  unfold StorageService.download_single_frame, StorageService.download_frame,
    StorageService.get_object, Spec.retrievable, StorageService.frame_key.
  fold (Spec.frame_path temp_dir rid i).
  run_monad. unfold os_makedirs, write_file. run_monad.
  destruct (objects w !! _) as [data|]; cbn beta iota; simpl.
  - split; [|split; [done|]].
    + intros p Hp. unfold path_exists in *. simpl.
      apply orb_true_iff in Hp as [Hp|Hp]; apply orb_true_iff.
      * left. apply bool_decide_eq_true in Hp. apply bool_decide_eq_true.
        destruct (decide (Spec.frame_path temp_dir rid i = p)) as [->|Hne].
        -- rewrite lookup_insert_eq. by eexists.
        -- by rewrite lookup_insert_ne.
      * right. apply bool_decide_eq_true in Hp. apply bool_decide_eq_true.
        set_solver.
    + intros _. unfold path_exists. simpl. rewrite lookup_insert_eq.
      by rewrite bool_decide_true by eauto.
  - split; [done|]. split; [done|]. intros H. discriminate H.
Qed.

(** Every frame the batch returns has its local file on the disk. *)
Lemma download_all_frames_materialized self rid n temp_dir env w :
  ∃ w',
    StorageService.download_all_frames self rid n temp_dir env w
      = (Ok (Spec.retrieved self w rid n temp_dir), w')
    ∧ Spec.same_off_disk w w'
    ∧ Forall (Spec.materialized w') (Spec.retrieved self w rid n temp_dir).
Proof.
  destruct (download_all_frames_spec self rid n temp_dir env w)
    as (w' & Hrun & Hsame).
  exists w'. split; [done|]. split; [done|].
  set (l := Py.range 1 (n + 1)).
  set (tasks := map (StorageService.download_single_frame self rid
                       (Py.os_path_join temp_dir [rid; "frames"])) l).
  pose proof (gather_post env tasks
                (λ w1, objects w1 = objects w)
                (λ k w1, ∀ i, l !! k = Some i →
                              Spec.retrievable self w rid i = true →
                              path_exists w1 (Spec.frame_path temp_dir rid i)
                              = true)) as Hpost.
  assert (Hw' : w' = (StorageService.gather tasks env w).2).
  { revert Hrun. unfold StorageService.download_all_frames. fold l. fold tasks.
    unfold mbind, M_bind, bind.
    destruct (StorageService.gather tasks env w) as [[res|e] w1];
      simpl; by intros [= _ <-]. }
  destruct (Hpost) with (w := w) as [_ HQ].
  - intros k t w1 Ht Hw1. unfold tasks in Ht.
    change (map ?g l) with (g <$> l) in Ht. rewrite list_lookup_fmap in Ht.
    destruct (l !! k) as [i|] eqn:Ei; [|done].
    cbv [fmap option_fmap option_map] in Ht. injection Ht as <-.
    destruct (download_single_frame_post self rid temp_dir i env w1)
      as (_ & Ho & Hex).
    unfold Py.os_path_join in Ho, Hex. cbn [fold_left] in Ho, Hex.
    split; [congruence|]. intros i' [= <-] Hr. apply Hex.
    by rewrite (retrievable_objects _ _ _ _ _ Hw1).
  - intros k j t w1 Ht Hw1 HQ i Hi Hr. unfold tasks in Ht.
    change (map ?g l) with (g <$> l) in Ht. rewrite list_lookup_fmap in Ht.
    destruct (l !! j) as [i'|] eqn:Ei; [|done].
    cbv [fmap option_fmap option_map] in Ht. injection Ht as <-.
    destruct (download_single_frame_post self rid temp_dir i' env w1)
      as (Hmono & _ & _).
    unfold Py.os_path_join in Hmono. cbn [fold_left] in Hmono.
    apply Hmono. by apply HQ.
  - done.
  - rewrite <- Hw' in HQ. unfold Spec.retrieved. fold l.
    apply Forall_fmap, Forall_forall. intros i Hi.
    apply list_elem_of_filter in Hi as [Hr Hi].
    apply list_elem_of_lookup in Hi as [k Hk].
    exists (Spec.frame_path temp_dir rid i). split; [done|].
    split; [apply frame_path_nonempty|].
    apply (HQ k); [|done..].
    unfold tasks. rewrite length_map. by eapply lookup_lt_Some.
Qed.

(** X10: every frame [download_all_frames] returns names a non-empty local
    path whose file is on the disk when the call returns, for every
    completion order; the call changes nothing but the local disk. *)
Theorem download_all_frames_leaves_files self rid n temp_dir env w :
  ∃ frames w',
    StorageService.download_all_frames self rid n temp_dir env w
      = (Ok frames, w')
    ∧ Forall (λ frame,
                ∃ p, local_path frame = Some p ∧ p ≠ EmptyString
                     ∧ path_exists w' p = true) frames
    ∧ objects w' = objects w ∧ calls w' = calls w ∧ stats w' = stats w.
Proof.
  destruct (download_all_frames_materialized self rid n temp_dir env w)
    as (w' & Hrun & (Ho & Hc & Hs & _) & Hall).
  by exists (Spec.retrieved self w rid n temp_dir), w'.
Qed.



(** ** Cleanup *)

Lemma rmtree_clean d env w :
  Obs.clean d (rmtree_if_exists d env w).2.
Proof.
  intros p Hp. unfold rmtree_if_exists, modify, path_exists. simpl.
  apply orb_false_iff. split; apply bool_decide_eq_false.
  - intros [x Hx]. apply map_lookup_filter_Some in Hx as [_ Hx].
    simpl in Hx. congruence.
  - intros Hin. apply elem_of_filter in Hin as [Hin _]. congruence.
Qed.

Lemma rmtree_keeps_clean d d' env w :
  Obs.clean d w → Obs.clean d (rmtree_if_exists d' env w).2.
Proof.
  intros Hc p Hp. specialize (Hc p Hp).
  unfold rmtree_if_exists, modify, path_exists in *. simpl.
  apply orb_false_iff in Hc as [Hf Hd].
  apply bool_decide_eq_false in Hf. apply bool_decide_eq_false in Hd.
  apply orb_false_iff. split; apply bool_decide_eq_false.
  - intros [x Hx]. apply map_lookup_filter_Some in Hx as [Hx _]. eauto.
  - intros Hin. apply elem_of_filter in Hin as [_ Hin]. done.
Qed.




(** ** The orchestrator on every path *)

Lemma encoder_calls_quiet evs : Obs.encoder_calls evs → Obs.quiet evs.
Proof.
  intros [->|(cmd & cwd & [->| ->])]; unfold Obs.quiet; repeat constructor.
Qed.

Lemma video_key_truthy rid : Py.truthy (Some (Obs.video_key rid)) = true.
Proof.
  apply truthy_nonempty. intros H. apply app_empty_r_inv in H. discriminate H.
Qed.

(** The cleanup pass leaves nothing below the working directory. *)
Lemma cleanup_run_clean settings rid env w :
  ∃ w',
    (VideoProcessorWorker.update_stats (VideoProcessorWorker.add_active (-1));;
     try_except
       (VideoCompiler.cleanup_work_directory
          (VideoProcessorWorker.video_compiler settings) rid;;
        StorageService.cleanup_frames
          (VideoProcessorWorker.storage_service settings) rid
          (Py.os_path_join (s_temp_dir settings) [rid; "frames"]))
       (λ _, mret tt)) env w = (Ok tt, w')
    ∧ calls w' = calls w
    ∧ objects w' = objects w
    ∧ stats w' = VideoProcessorWorker.add_active (-1) (stats w)
    ∧ Obs.clean
        (Spec.work_dir (VideoProcessorWorker.video_compiler settings) rid) w'.
Proof.
  eexists. split; [reflexivity|]. split; [done|]. split; [done|].
  split; [done|].
  apply (rmtree_keeps_clean _ _ env). apply (rmtree_clean _ env).
Qed.

Ltac use_download :=
  match goal with
  | |- context [StorageService.download_all_frames ?s ?r ?n ?t ?e ?w0] =>
      let w3 := fresh "w3" in
      let Hd := fresh "Hd" in
      destruct (download_all_frames_spec s r n t e w0)
        as (w3 & Hd & Hdo & Hdc & Hds & _);
      rewrite Hd; cbn beta iota
  end.

Ltac use_compile :=
  match goal with
  | |- context [VideoCompiler.compile_video ?a ?b ?c ?d ?e ?f ?g ?h ?w0] =>
      destruct (compile_video_frame a b c d e f g h w0)
        as (r & w4 & evs & Hc & Hcc & Hce & Hcs & Hco & Hcons & Hurl);
      rewrite Hc; cbn beta iota
  end.

Ltac use_upload :=
  match goal with
  | |- context [StorageService.upload_video ?a ?b ?c ?e ?w0] =>
      destruct (upload_video_frame a b c e w0)
        as (o & w5 & evs2 & Hu & Huc & Hue & Hus & _ & _ & Huo);
      rewrite Hu; cbn beta iota
  end.

(** One "processing" update, then calls that are no status updates, then one
    terminal update that matches the returned outcome; the counters move
    accordingly and the working directory is gone. *)
Lemma orchestrate_protocol settings job env w :
  let rid := job_request_id job in
  ∃ ok w' mids term,
    VideoProcessorWorker.process_video_compilation_job settings job env w
      = (Ok ok, w')
    ∧ calls w'
      = (calls w ++ EvStatus rid "processing" None None None
                    :: mids ++ [term])%list
    ∧ Obs.quiet mids
    ∧ Obs.terminal rid ok term
    ∧ active_jobs (stats w') = active_jobs (stats w)
    ∧ completed_jobs (stats w')
      = completed_jobs (stats w) + (if ok then 1 else 0)
    ∧ failed_jobs (stats w') = failed_jobs (stats w) + (if ok then 0 else 1)
    ∧ Obs.clean
        (Spec.work_dir (VideoProcessorWorker.video_compiler settings) rid) w'
    ∧ (if ok
       then ∃ data,
              objects w'
              = <[(s_videos_bucket settings, Obs.video_key rid) := data]>
                  (objects w)
       else objects w' = objects w).
Proof.
  intros rid.
  unfold VideoProcessorWorker.process_video_compilation_job. fold rid.
  match goal with
  | |- context [try_finally ?m ?f] =>
      assert (∃ ok w1 mids term,
                m env w = (Ok ok, w1)
                ∧ calls w1
                  = (calls w ++ EvStatus rid "processing" None None None
                                :: mids ++ [term])%list
                ∧ Obs.quiet mids
                ∧ Obs.terminal rid ok term
                ∧ stats w1
                  = (if ok then VideoProcessorWorker.add_completed
                     else VideoProcessorWorker.add_failed)
                      (VideoProcessorWorker.add_active 1 (stats w))
                ∧ (if ok
                   then ∃ data,
                          objects w1
                          = <[(s_videos_bucket settings, Obs.video_key rid)
                                := data]> (objects w)
                   else objects w1 = objects w))
        as (ok & w1 & mids & term & Hm & Hcalls & Hq & Ht & Hstats & Hobj)
  end.
  { unfold VideoProcessorWorker.update_stats, APIClient.update_video_status.
    run_monad. use_download.
    cbn [calls stats objects set_calls set_stats] in Hdo, Hdc, Hds.
    destruct (bool_decide (_ ≠ total_frames job)); cbn beta iota.
    { eexists false, _, [], _. split; [reflexivity|].
      cbn [calls stats objects set_calls set_stats]. rewrite Hdc, Hds.
      split; [by rewrite <- app_assoc|]. split; [constructor|].
      split; [by eexists _, _|]. done. }
    use_compile.
    pose proof (encoder_calls_quiet _ Hce) as Hqe.
    destruct (success r) eqn:Hsucc; cbn [andb].
    - rewrite (Hurl eq_refl). cbn beta iota. use_upload.
      destruct Huo as [[-> Huo] | [-> [data Huo]]].
      + cbn [Py.truthy]. cbn beta iota.
        eexists false, _, (evs ++ evs2)%list, _. split; [reflexivity|].
        cbn [calls stats objects set_calls set_stats].
        rewrite Huc, Hcc, Hdc, Hus, Hcs, Hds, Huo, Hco, Hdo.
        split; [by rewrite <- !app_assoc|].
        split; [by apply Forall_app|]. split; [by eexists _, _|]. done.
      + rewrite video_key_truthy. cbn beta iota.
        eexists true, _, (evs ++ evs2)%list, _. split; [reflexivity|].
        cbn [calls stats objects set_calls set_stats].
        rewrite Huc, Hcc, Hdc, Hus, Hcs, Hds, Huo, Hco, Hdo.
        split; [by rewrite <- !app_assoc|].
        split; [by apply Forall_app|]. split; [by eexists _, _|].
        split; [done|]. by exists data.
    - cbn beta iota.
      destruct Hcons as (_ & _ & Hres). rewrite Hsucc in Hres.
      destruct Hres as [Hnone [msg Hmsg]].
      eexists false, _, evs, _. split; [reflexivity|].
      cbn [calls stats objects set_calls set_stats].
      rewrite Hcc, Hdc, Hcs, Hds, Hco, Hdo.
      split; [by rewrite <- !app_assoc|].
      split; [done|]. split; [rewrite Hmsg; by eexists _, _|]. done. }
  destruct (cleanup_run_clean settings rid env w1)
    as (w' & Hf & Hc' & Ho' & Hs' & Hclean).
  exists ok, w', mids, term. split; [by eapply try_finally_run|].
  rewrite Hc', Hs', Ho', Hstats.
  split; [done|]. split; [done|]. split; [done|].
  destruct ok; simpl; repeat split; try lia; done.
Qed.

(** X13: the orchestrator never raises.  On every path the coordinator sees
    exactly one "processing" update first and exactly one terminal update
    last, with no status update and no settlement in between; the terminal
    update is "completed" with the artifact key when [True] is returned and
    "failed" with a message when [False] is returned. *)
Theorem orchestrator_status_protocol settings job env w :
  ∃ ok w' mids term,
    VideoProcessorWorker.process_video_compilation_job settings job env w
      = (Ok ok, w')
    ∧ calls w'
      = (calls w ++ EvStatus (job_request_id job) "processing" None None None
                    :: mids ++ [term])%list
    ∧ Forall (λ e, Obs.is_status e = false ∧ Obs.is_settlement e = false) mids
    ∧ if ok
      then ∃ key t,
             term = EvStatus (job_request_id job) "completed" (Some key) None t
      else ∃ msg t,
             term = EvStatus (job_request_id job) "failed" None (Some msg) t.
Proof.
  destruct (orchestrate_protocol settings job env w)
    as (ok & w' & mids & term & Hrun & Hcalls & Hq & Ht & _).
  by exists ok, w', mids, term.
Qed.

(** X14: whatever the path, one job leaves [active_jobs] as it found it and
    moves exactly one of the other counters by one: [completed_jobs] when it
    returns [True], [failed_jobs] when it returns [False]. *)
Theorem orchestrator_counters settings job env w :
  ∃ ok w',
    VideoProcessorWorker.process_video_compilation_job settings job env w
      = (Ok ok, w')
    ∧ active_jobs (stats w') = active_jobs (stats w)
    ∧ completed_jobs (stats w')
      = completed_jobs (stats w) + (if ok then 1 else 0)
    ∧ failed_jobs (stats w') = failed_jobs (stats w) + (if ok then 0 else 1).
Proof.
  destruct (orchestrate_protocol settings job env w)
    as (ok & w' & mids & term & Hrun & _ & _ & _ & Ha & Hc & Hf & _ & _).
  by exists ok, w'.
Qed.



(** X23: a job writes to the object store at most once: when it returns
    [True] the store differs from before exactly by the artifact under
    [{request_id}/compiled_video.mp4] in the videos bucket; when it returns
    [False] the store is unchanged.  No other object is ever written, changed
    or deleted. *)
Theorem orchestrator_store_effect settings job env w :
  ∃ ok w',
    VideoProcessorWorker.process_video_compilation_job settings job env w
      = (Ok ok, w')
    ∧ (if ok
       then ∃ data,
              objects w'
              = <[(s_videos_bucket settings,
                   job_request_id job +:+ "/compiled_video.mp4") := data]>
                  (objects w)
       else objects w' = objects w)
    ∧ ∀ bucket key,
        (bucket, key) ≠ (s_videos_bucket settings,
                         job_request_id job +:+ "/compiled_video.mp4") →
        objects w' !! (bucket, key) = objects w !! (bucket, key).
Proof.
  destruct (orchestrate_protocol settings job env w)
    as (ok & w' & mids & term & Hrun & _ & _ & _ & _ & _ & _ & _ & Hobj).
  exists ok, w'. split; [done|]. split; [exact Hobj|].
  intros bucket key Hne. destruct ok.
  - destruct Hobj as [data ->]. by rewrite lookup_insert_ne.
  - by rewrite Hobj.
Qed.






Lemma retrieved_nil self w rid n temp_dir :
  n ≤ 0 → Spec.retrieved self w rid n temp_dir = [].
Proof.
  intros Hn. unfold Spec.retrieved, Py.range. by rewrite seqZ_nil by lia.
Qed.

(** X17: a job that asks for no frames never reaches the encoder.  With
    [total_frames] zero the empty batch passes the count check and the
    encoder stage refuses it ("No frames provided for compilation"); with a
    negative count the check itself fails ("Downloaded 0/n frames").  Either
    way the job is reported failed and [False] is returned. *)
Theorem job_without_frames_fails settings job env w :
  total_frames job ≤ 0 →
  ∃ w',
    VideoProcessorWorker.process_video_compilation_job settings job env w
      = (Ok false, w')
    ∧ calls w'
      = (calls w ++
         [EvStatus (job_request_id job) "processing" None None None;
          EvStatus (job_request_id job) "failed" None
            (Some (if bool_decide (total_frames job = 0)
                   then "No frames provided for compilation"
                   else VideoProcessorWorker.shortfall_message 0
                          (total_frames job)))
            None])%list.
Proof.
  intros Hn. destruct (decide (total_frames job = 0)) as [H0|H0].
  - rewrite bool_decide_true by done.
    unfold VideoProcessorWorker.process_video_compilation_job.
    match goal with
    | |- context [try_finally ?m ?f] =>
        assert (∃ w1, m env w = (Ok false, w1)
                  ∧ calls w1
                    = (calls w ++
                       [EvStatus (job_request_id job) "processing" None None
                          None;
                        EvStatus (job_request_id job) "failed" None
                          (Some "No frames provided for compilation")
                          None])%list)
          as (w1 & Hm & Hcalls)
    end.
    { unfold VideoProcessorWorker.update_stats, APIClient.update_video_status.
      run_monad.
      match goal with
      | |- context [StorageService.download_all_frames ?s ?r ?n ?t ?e ?w0] =>
          destruct (download_all_frames_spec s r n t e w0)
            as (w3 & Hd & Hdo & Hdc & Hds & Hdk);
          rewrite Hd; cbn beta iota;
          rewrite (retrieved_nil s w0) by lia
      end.
      cbn [calls set_calls set_stats] in Hdc.
      cbn [length]. rewrite bool_decide_false by (simpl; lia).
      cbn beta iota. enter_compile_video.
      eexists. split; [reflexivity|].
      cbn [calls set_calls set_stats set_clock_reads].
      rewrite Hdc. by rewrite <- !app_assoc. }
    destruct (cleanup_run settings (job_request_id job) env w1)
      as (w' & Hf & Hc' & _).
    exists w'. split; [by eapply try_finally_run|]. by rewrite Hc'.
  - rewrite bool_decide_false by done.
    destruct (shortfall_run settings job env w) as (w' & Hrun & Hcalls & _).
    { rewrite retrieved_nil by lia. simpl. lia. }
    exists w'. split; [done|].
    rewrite Hcalls. by rewrite retrieved_nil by lia.
Qed.

Lemma job_without_frames_fails_witness :
  ∃ w',
    VideoProcessorWorker.process_video_compilation_job default_settings
      (Runs.job "r1" 0 "mp4")
      (Runs.env_with false 0 "/tmp/video_processing/r1/output.mp4" Runs.video)
      (Runs.world_with "r1" 3)
      = (Ok false, w')
    ∧ calls w'
      = [EvStatus "r1" "processing" None None None;
         EvStatus "r1" "failed" None
           (Some "No frames provided for compilation") None].
Proof.
  apply (job_without_frames_fails default_settings (Runs.job "r1" 0 "mp4")
           (Runs.env_with false 0 "/tmp/video_processing/r1/output.mp4"
              Runs.video)
           (Runs.world_with "r1" 3)).
  simpl. lia.
Defined.



Lemma compile_video_spawn_failure_witness :
  ∃ w',
    VideoCompiler.compile_video Runs.compiler "r1"
      [Runs.frame 1 "/tmp/video_processing/r1/frames/frame_000001.jpg"]
      30 "medium" "mp4" 300 Cases.env_no_encoder (Runs.world_with "r1" 1)
      = (Ok {| request_id := "r1"; success := false; video_url := None;
               error_message :=
                 Some "Compilation error: No such file or directory: 'ffmpeg'";
               compilation_time := Some 7; completed_at := None |}, w')
    ∧ calls w' = [].
Proof.
  apply (compile_video_spawn_failure Runs.compiler "r1"
           [Runs.frame 1 "/tmp/video_processing/r1/frames/frame_000001.jpg"]
           30 "medium" "mp4" 300 Cases.env_no_encoder (Runs.world_with "r1" 1)
           {| exn_kind := OSError;
              exn_str := "No such file or directory: 'ffmpeg'" |}).
  - discriminate.
  - lia.
  - reflexivity.
Defined.

Lemma compile_video_zero_fps_witness :
  ∃ w' msg,
    VideoCompiler.compile_video Runs.compiler "r1"
      [Runs.frame 1 "/tmp/video_processing/r1/frames/frame_000001.jpg"]
      0 "medium" "mp4" 300
      (Runs.env_with false 0 EmptyString EmptyString) (Runs.world_with "r1" 1)
      = (Ok {| request_id := "r1"; success := false; video_url := None;
               error_message := Some ("Compilation error: " +:+ msg);
               compilation_time := Some 7; completed_at := None |}, w')
    ∧ calls w' = []
    ∧ files w' = ∅
    ∧ dirs w' = {[ "/tmp/video_processing/r1" ]} ∪ ∅.
Proof.
  apply (compile_video_zero_fps Runs.compiler "r1"
           [Runs.frame 1 "/tmp/video_processing/r1/frames/frame_000001.jpg"]
           "medium" "mp4" 300
           (Runs.env_with false 0 EmptyString EmptyString)
           (Runs.world_with "r1" 1)).
  discriminate.
Defined.

(** ** The queue gateway on every delivery *)







(** ** The coordinator address *)

Lemma rstrip_sep_snoc s : Py.rstrip_sep (s +:+ "/") = Py.rstrip_sep s.
Proof.
  induction s as [|c s IH]; [done|].
  change (String c s +:+ "/") with (String c (s +:+ "/")).
  cbn [Py.rstrip_sep]. by rewrite IH.
Qed.

Lemma rstrip_sep_no_trailing s : Py.ends_with_sep (Py.rstrip_sep s) = false.
Proof.
  induction s as [|c s IH]; [done|].
  cbn [Py.rstrip_sep].
  destruct (Py.rstrip_sep s) as [|c' s'] eqn:E.
  - destruct (bool_decide (c = "/"%char)) eqn:Ec; [done|].
    cbn [Py.ends_with_sep]. exact Ec.
  - exact IH.
Qed.

(** X22: trailing slashes of the configured base address are dropped: the
    stored address never ends in a slash, and the status and frames addresses
    are the same whether or not the configured address ended in one. *)
Theorem api_urls_ignore_trailing_slash base_url request_id :
  Py.ends_with_sep (APIClientUrl.init base_url) = false
  ∧ APIClientUrl.status_url (APIClientUrl.init (base_url +:+ "/")) request_id
    = APIClientUrl.status_url (APIClientUrl.init base_url) request_id
  ∧ APIClientUrl.frames_url (APIClientUrl.init (base_url +:+ "/")) request_id
    = APIClientUrl.frames_url (APIClientUrl.init base_url) request_id.
Proof.
  unfold APIClientUrl.init. split; [apply rstrip_sep_no_trailing|].
  by rewrite rstrip_sep_snoc.
Qed.

(** ** The manifest in general *)






